(** * botbuilder-dialogs: the OAuthPrompt and the DialogManager turn driver

    A shallow embedding of [OAuthPrompt] (prompts/oauthPrompt.ts) and of
    [DialogManager.onTurn] (dialogManager.ts), with the properties of the
    specification proved about them.

    Asynchronous methods run to completion one after the other inside a turn,
    so a method is a function from the state it can mutate to an outcome (a
    returned value or a thrown error) and the mutated state.  What a method
    does to the outside world (activities sent, adapter calls, validator
    calls) is appended to a chronological log. *)

From Stdlib Require Import ZArith List String Ascii Bool Lia.
From stdpp Require Import gmap strings.
Import ListNotations.

Local Open Scope Z_scope.
Local Open Scope string_scope.

(** ** Outcomes and the effect monad *)

(** A JavaScript [Error]. *)
Inductive JsError := Err (message : string).

(** How a call ends: it returns, or it throws. *)
Inductive Outcome (A : Type) :=
  | Returned (a : A)
  | Thrown (e : JsError).
Arguments Returned {A} a.
Arguments Thrown {A} e.

(** A computation over mutable state [S].  The state is kept when the
    computation throws: mutations made before a [throw] stay made. *)
Definition Eff (S A : Type) : Type := S -> Outcome A * S.

Definition ret {S A} (a : A) : Eff S A := fun s => (Returned a, s).

Definition throw {S A} (e : JsError) : Eff S A := fun s => (Thrown e, s).

Definition bind {S A B} (m : Eff S A) (k : A -> Eff S B) : Eff S B :=
  fun s =>
    match m s with
    | (Returned a, s') => k a s'
    | (Thrown e, s') => (Thrown e, s')
    end.

(** [try { m } catch (e) { h e }] *)
Definition tryCatch {S A} (m : Eff S A) (h : JsError -> Eff S A) : Eff S A :=
  fun s =>
    match m s with
    | (Returned a, s') => (Returned a, s')
    | (Thrown e, s') => h e s'
    end.

Definition gets {S A} (f : S -> A) : Eff S A := fun s => (Returned (f s), s).

Definition modify {S} (f : S -> S) : Eff S unit := fun s => (Returned tt, f s).

(** Runs a computation on a component of the state. *)
Definition zoom {S T A} (get : S -> T) (set : T -> S -> S) (m : Eff T A) : Eff S A :=
  fun s => let (o, t') := m (get s) in (o, set t' s).

Declare Scope eff_scope.
Delimit Scope eff_scope with eff.
Notation "'do' x <- m ; k" := (bind m (fun x => k))
  (at level 10, x name, m at level 100, k at level 200) : eff_scope.
Notation "m ;; k" := (bind m (fun _ => k))
  (at level 100, k at level 200, right associativity) : eff_scope.
Local Open Scope eff_scope.

(** ** Module OAuthPrompt *)

Module OAuthPrompt.

(** *** Activities *)

(** [ActivityTypes] of botframework-schema, as far as the prompt tells them
    apart. *)
Inductive ActivityTypes :=
  | Message
  | Event
  | Invoke
  | InvokeResponse
  | Trace
  | OtherType (name : string).

Definition ActivityTypes_eqb (a b : ActivityTypes) : bool :=
  match a, b with
  | Message, Message | Event, Event | Invoke, Invoke
  | InvokeResponse, InvokeResponse | Trace, Trace => true
  | OtherType x, OtherType y => String.eqb x y
  | _, _ => false
  end.

Inductive InputHints := AcceptingInput | ExpectingInput | IgnoringInput.

Inductive ActionTypes := Signin | OpenUrl.

(** [Channels]: the channel ids the prompt compares against. *)
Inductive Channels :=
  | Msteams
  | Cortana
  | Skype
  | Skypeforbusiness
  | Emulator
  | OtherChannel (id : string).

(** An object received as [activity.value]: its own properties, by name. *)
Abbreviation JsObject := (gmap string string).

(** [TokenResponse]; an absent (null or undefined) member is [None]. *)
Record TokenResponse := {
  tr_channelId : option string;
  tr_connectionName : option string;
  tr_token : option string;
  tr_expiration : option string
}.

(** [context.activity.value as TokenResponse]: the members a [TokenResponse]
    has, read off the object. *)
Definition asTokenResponse (o : JsObject) : TokenResponse :=
  {| tr_channelId := o !! "channelId";
     tr_connectionName := o !! "connectionName";
     tr_token := o !! "token";
     tr_expiration := o !! "expiration" |}.

(** The inbound activity of the turn. *)
Record Activity := {
  type : ActivityTypes;
  name : option string;
  text : option string;
  value : option JsObject;
  channelId : Channels;
  serviceUrl : option string;
  from_id : string
}.

(** [TokenExchangeInvokeResponse] *)
Record TokenExchangeInvokeResponse := {
  ter_id : option string;
  ter_connectionName : string;
  ter_failureDetail : option string
}.

(** The value of an outbound [invokeResponse] activity. *)
Record InvokeResponseValue := {
  status : Z;
  body : option TokenExchangeInvokeResponse
}.

Inductive CardContent :=
  | OAuthCard (connectionName title : string) (text link : option string)
      (tokenExchangeResource : option string) (buttonType : ActionTypes)
  | SigninCard (title : string) (link : option string) (text : option string)
  | OtherCard.

Inductive ContentType :=
  | oauthCard
  | signinCard
  | otherContentType (name : string).

Record Attachment := {
  contentType : ContentType;
  content : CardContent
}.

(** [Partial<Activity>]: an outbound activity under construction. *)
Record PartialActivity := {
  p_type : option ActivityTypes;
  p_text : option string;
  p_inputHint : option InputHints;
  p_attachments : option (list Attachment);
  p_value : option InvokeResponseValue
}.

(** [string | Partial<Activity>]: a prompt, and what [sendActivity] accepts. *)
Inductive Prompt :=
  | PText (s : string)
  | PActivity (a : PartialActivity).

Record PromptOptions := {
  prompt : option Prompt;
  retryPrompt : option Prompt
}.

(** [PromptRecognizerResult<TokenResponse>] *)
Record PromptRecognizerResult := {
  succeeded : bool;
  r_value : option TokenResponse
}.

(** [OAuthPromptState]: the private state of the prompt's dialog instance.
    [state] is the free-form object handed to the validator; the prompt keeps
    its counter under the key ["attemptCount"]. *)
Record OAuthPromptState := {
  state : gmap string Z;
  options : PromptOptions;
  expires : Z
}.

(** *** Collaborators *)

Record SignInResource := {
  signInLink : option string;
  tokenExchangeResource : option string
}.

(** The adapter.  A method the adapter object does not have is [None]; a
    method it has answers with an outcome. *)
Record BotAdapter := {
  adapter_name : option string;
  adapter_getUserToken :
    option (Activity -> string -> option string -> Outcome (option TokenResponse));
  adapter_getSignInResource :
    Activity -> string -> string -> Outcome SignInResource;
  adapter_exchangeToken :
    option (Activity -> string -> string -> option string -> Outcome (option TokenResponse))
}.

(** What the validator is called with. *)
Record PromptValidatorContext := {
  pvc_activity : Activity;
  pvc_responded : bool;
  pvc_recognized : PromptRecognizerResult;
  pvc_state : gmap string Z;
  pvc_options : PromptOptions;
  pvc_attemptCount : Z
}.

(** What a validator call does: the activities it sends through the context,
    then its verdict (or the error it throws). *)
Record ValidatorRun := {
  vr_replies : list Prompt;
  vr_verdict : Outcome bool
}.

Definition PromptValidator := PromptValidatorContext -> ValidatorRun.

(** What a turn does to the outside world, oldest first. *)
Inductive Effect :=
  | SendActivity (a : Prompt)
  | GetUserToken (connectionName : string) (code : option string)
  | GetSignInResource (connectionName userId : string)
  | ExchangeToken (connectionName userId : string) (token : option string)
  | CallValidator (c : PromptValidatorContext).

(** [TurnContext]: the inbound activity and what the turn can mutate. *)
Record TurnContext := {
  activity : Activity;
  responded : bool;
  loginTimeout : option Z;
  log : list Effect
}.

(** [DialogContext], as the prompt sees it. *)
Record DialogContext := {
  context : TurnContext;
  activeDialog_state : OAuthPromptState
}.

Record OAuthPromptSettings := {
  oAuthAppCredentials : option string;
  s_connectionName : string;
  s_title : string;
  s_text : option string;
  timeout : option Z
}.

(** The prompt object: [this.settings] and [this.validator]. *)
Record OAuthPrompt := {
  settings : OAuthPromptSettings;
  validator : option PromptValidator
}.

(** What the host supplies during a turn: the adapter, the clock reading of
    [new Date().getTime()], the names of the sign-in operations defined in
    botbuilder-core, and whether the bot identity in turn state carries a
    skill claim ([isSkillClaim]). *)
Record Host := {
  adapter : BotAdapter;
  now : Z;
  tokenResponseEventName : string;
  verifyStateOperationName : string;
  tokenExchangeOperationName : string;
  botIsSkill : bool
}.

(** Modelled from the spec: [DialogContext.endDialog] and [Dialog.EndOfTurn]
    (dialogContext.ts and dialog.ts are not part of the sources).  A dialog
    either suspends until the next turn ([waiting]) or finishes with a value:
    the instance is popped and the value flows to the dialog below. *)
Inductive DialogTurnResult :=
  | EndOfTurn
  | Completed (result : option TokenResponse).

(** *** Small helpers: state access and JavaScript strings *)

Definition with_log (c : TurnContext) (l : list Effect) : TurnContext :=
  {| activity := activity c; responded := responded c;
     loginTimeout := loginTimeout c; log := l |}.

Definition with_responded (c : TurnContext) (b : bool) : TurnContext :=
  {| activity := activity c; responded := b;
     loginTimeout := loginTimeout c; log := log c |}.

Definition with_loginTimeout (c : TurnContext) (t : option Z) : TurnContext :=
  {| activity := activity c; responded := responded c;
     loginTimeout := t; log := log c |}.

Definition with_context (c : TurnContext) (dc : DialogContext) : DialogContext :=
  {| context := c; activeDialog_state := activeDialog_state dc |}.

Definition with_state (st : OAuthPromptState) (dc : DialogContext) : DialogContext :=
  {| context := context dc; activeDialog_state := st |}.

(** Runs a method that takes [dc.context]. *)
Definition onContext {A} (m : Eff TurnContext A) : Eff DialogContext A :=
  zoom context with_context m.

(** A call to a collaborator: the call is logged and its outcome becomes the
    outcome of the computation. *)
Definition call {A} (e : Effect) (o : Outcome A) : Eff TurnContext A :=
  fun c => (o, with_log c (log c ++ [e])).

Definition isDigit (c : ascii) : bool :=
  ((48 <=? nat_of_ascii c) && (nat_of_ascii c <=? 57))%nat.

(** The next [n] characters of [s], when they are all digits. *)
Fixpoint takeDigits (n : nat) (s : string) : option string :=
  match n with
  | O => Some EmptyString
  | S n' =>
      match s with
      | String c s' =>
          if isDigit c then option_map (String c) (takeDigits n' s') else None
      | EmptyString => None
      end
  end.

(** [/(\d{6})/.exec(s)]: group 1 of the leftmost match, when there is one. *)
Fixpoint execSixDigits (s : string) : option string :=
  match takeDigits 6 s with
  | Some m => Some m
  | None =>
      match s with
      | String _ s' => execSixDigits s'
      | EmptyString => None
      end
  end.

(** [String(x)] for an optional string: [undefined] reads "undefined". *)
Definition toJsString (x : option string) : string :=
  match x with
  | Some s => s
  | None => "undefined"
  end.

Definition toLowerAscii (c : ascii) : ascii :=
  let n := nat_of_ascii c in
  if ((65 <=? n) && (n <=? 90))%nat then ascii_of_nat (n + 32) else c.

Fixpoint toLowerCase (s : string) : string :=
  match s with
  | EmptyString => EmptyString
  | String c s' => String (toLowerAscii c) (toLowerCase s')
  end.

Definition startsWith (s pre : string) : bool := String.prefix pre s.

Definition isString_eq (x : option string) (s : string) : bool :=
  match x with
  | Some y => String.eqb y s
  | None => false
  end.

(** [StatusCodes] of botbuilder-core is not part of the sources; the numbers
    are those the specification names for each reply. *)
Module StatusCodes.
(** Modelled from the spec: [StatusCodes.OK], the success reply. *)
Definition OK : Z := 200.
(** Modelled from the spec: [StatusCodes.BAD_REQUEST], the reply to a
    malformed token-exchange payload. *)
Definition BAD_REQUEST : Z := 400.
(** Modelled from the spec: [StatusCodes.CONFLICT], "unable to exchange,
    proceed with regular login". *)
Definition CONFLICT : Z := 409.
(** Modelled from the spec: [StatusCodes.BAD_GATEWAY], the reply when the
    provider does not support exchange. *)
Definition BAD_GATEWAY : Z := 502.
End StatusCodes.

(** A trace activity is diagnostic; it does not count as a response. *)
Definition isTraceActivity (a : Prompt) : bool :=
  match a with
  | PActivity pa =>
      match p_type pa with
      | Some Trace => true
      | _ => false
      end
  | PText _ => false
  end.

(** Modelled from the spec: [TurnContext.sendActivity] of botbuilder-core (not
    part of the sources).  The activity goes out through the channel, and the
    context has then "produced output this turn" ([responded]), unless the
    activity is a trace.  Sending does not throw. *)
Definition sendActivity (a : Prompt) : Eff TurnContext unit :=
  fun c =>
    (Returned tt,
     with_responded (with_log c (log c ++ [SendActivity a]))
       (responded c || negb (isTraceActivity a))).

(** Modelled from the spec: [dc.endDialog(result)] (dialogContext.ts is not
    part of the sources): the instance is popped and [result] is what the
    prompt finishes with. *)
Definition endDialog {S} (result : option TokenResponse) : Eff S DialogTurnResult :=
  ret (Completed result).

(** *** The methods of OAuthPrompt *)

Section Methods.

Variable this : OAuthPrompt.
Variable host : Host.

Definition connection : string := s_connectionName (settings this).

Definition isTokenResponseEvent (a : Activity) : bool :=
  ActivityTypes_eqb (type a) Event
  && isString_eq (name a) (tokenResponseEventName host).

Definition isTeamsVerificationInvoke (a : Activity) : bool :=
  ActivityTypes_eqb (type a) Invoke
  && isString_eq (name a) (verifyStateOperationName host).

Definition isTokenExchangeRequestInvoke (a : Activity) : bool :=
  ActivityTypes_eqb (type a) Invoke
  && isString_eq (name a) (tokenExchangeOperationName host).

Definition isTokenExchangeRequest (obj : JsObject) : bool :=
  match obj !! "token" with
  | Some _ => true
  | None => false
  end.

Definition channelSupportsOAuthCard (channelId : Channels) : bool :=
  match channelId with
  | Msteams | Cortana | Skype | Skypeforbusiness => false
  | _ => true
  end.

Definition communityAdapterNames : list string :=
  [ "Facebook Adapter"; "Google Hangouts Adapter"; "Slack Adapter";
    "Twilio SMS Adapter"; "Web Adapter"; "Webex Adapter"; "Botkit CMS" ].

Definition isOAuthCardSupported (a : Activity) : bool :=
  match adapter_name (adapter host) with
  | Some n =>
      if existsb (String.eqb n) communityAdapterNames then false
      else channelSupportsOAuthCard (channelId a)
  | None => channelSupportsOAuthCard (channelId a)
  end.

Definition isFromStreamingConnection (a : Activity) : bool :=
  match serviceUrl a with
  | Some url =>
      negb (String.eqb url "") && negb (startsWith (toLowerCase url) "http")
  | None => false
  end.

Definition getTokenExchangeInvokeResponse
    (status : Z) (failureDetail : option string) (id : option string) : Prompt :=
  PActivity
    {| p_type := Some InvokeResponse;
       p_text := None;
       p_inputHint := None;
       p_attachments := None;
       p_value :=
         Some {| status := status;
                 body := Some {| ter_id := id;
                                 ter_connectionName := connection;
                                 ter_failureDetail := failureDetail |} |} |}.

(** [{ type: 'invokeResponse', value: { status } }] *)
Definition invokeResponse (status : Z) : Prompt :=
  PActivity
    {| p_type := Some InvokeResponse;
       p_text := None;
       p_inputHint := None;
       p_attachments := None;
       p_value := Some {| status := status; body := None |} |}.

Definition getUserToken (code : option string) : Eff TurnContext (option TokenResponse) :=
  match adapter_getUserToken (adapter host) with
  | None => throw (Err "OAuthPrompt.getUserToken(): not supported for the current adapter.")
  | Some lookup =>
      do a <- gets activity;
      call (GetUserToken connection code) (lookup a connection code)
  end.

(** [MessageFactory.text(text, undefined, InputHints.AcceptingInput)] *)
Definition MessageFactory_text (text : option string) : PartialActivity :=
  {| p_type := Some Message;
     p_text := text;
     p_inputHint := Some AcceptingInput;
     p_attachments := None;
     p_value := None |}.

Definition with_attachments (msg : PartialActivity) (l : list Attachment) : PartialActivity :=
  {| p_type := p_type msg;
     p_text := p_text msg;
     p_inputHint := p_inputHint msg;
     p_attachments := Some l;
     p_value := p_value msg |}.

Definition hasCard (ct : ContentType) (l : list Attachment) : bool :=
  existsb
    (fun a =>
       match contentType a, ct with
       | oauthCard, oauthCard | signinCard, signinCard => true
       | _, _ => false
       end) l.

Definition getSignInResource : Eff TurnContext SignInResource :=
  do a <- gets activity;
  call (GetSignInResource connection (from_id a))
       (adapter_getSignInResource (adapter host) a connection (from_id a)).

Definition isTruthyNumber (x : option Z) : bool :=
  match x with
  | Some n => negb (Z.eqb n 0)
  | None => false
  end.

Definition sendOAuthCardAsync (prompt : option Prompt) : Eff TurnContext unit :=
  match adapter_getUserToken (adapter host) with
  | None =>
      throw (Err "OAuthPrompt.sendOAuthCardAsync(): not supported for the current adapter.")
  | Some _ =>
      do a <- gets activity;
      (* Initialize outgoing message *)
      let msg :=
        match prompt with
        | Some (PActivity pa) => pa
        | Some (PText s) => MessageFactory_text (Some s)
        | None => MessageFactory_text None
        end in
      let attachments :=
        match p_attachments msg with
        | Some l => l
        | None => []
        end in
      (* Add login card as needed *)
      do attachments' <-
        (if isOAuthCardSupported a then
           if hasCard oauthCard attachments then ret attachments
           else
             do signInResource <- getSignInResource;
             let useSignInLink :=
               botIsSkill host || isFromStreamingConnection a
               || match oAuthAppCredentials (settings this) with
                  | Some _ => true
                  | None => false
                  end in
             let cardActionType :=
               if useSignInLink then
                 match channelId a with
                 | Emulator => OpenUrl
                 | _ => Signin
                 end
               else Signin in
             let link := if useSignInLink then signInLink signInResource else None in
             ret (app attachments
                    [ {| contentType := oauthCard;
                         content :=
                           OAuthCard connection (s_title (settings this))
                             (s_text (settings this)) link
                             (tokenExchangeResource signInResource)
                             cardActionType |} ])
         else
           if hasCard signinCard attachments then ret attachments
           else
             do signInResource <- getSignInResource;
             ret (app attachments
                    [ {| contentType := signinCard;
                         content :=
                           SigninCard (s_title (settings this))
                             (signInLink signInResource)
                             (s_text (settings this)) |} ]));
      (* Add the login timeout to TurnState *)
      do current <- gets loginTimeout;
      (if negb (isTruthyNumber current) && isTruthyNumber (timeout (settings this))
       then modify (fun c => with_loginTimeout c (timeout (settings this)))
       else ret tt) ;;
      (* Send prompt *)
      sendActivity (PActivity (with_attachments msg attachments'))
  end.

Definition recognized_of (token : option TokenResponse) : PromptRecognizerResult :=
  match token with
  | Some t => {| succeeded := true; r_value := Some t |}
  | None => {| succeeded := false; r_value := None |}
  end.

Definition missingRequestDetail : string :=
  "The bot received an InvokeActivity that is missing a TokenExchangeInvokeRequest value. This is required to be sent with the InvokeActivity.".

Definition connectionMismatchDetail : string :=
  String.append
    "The bot received an InvokeActivity with a TokenExchangeInvokeRequest containing a ConnectionName that does not match the ConnectionName"
    "expected by the bots active OAuthPrompt. Ensure these names match when sending the InvokeActivityInvalid ConnectionName in the TokenExchangeInvokeRequest".

Definition unsupportedExchangeDetail : string :=
  "The bot's BotAdapter does not support token exchange operations. Ensure the bot's Adapter supports the ExtendedUserTokenProvider interface.".

Definition unableToExchangeDetail : string :=
  "The bot is unable to exchange token. Proceed with regular login.".

(** A token-exchange response that is missing, or whose [token] is missing or
    empty, is falsy in [!tokenExchangeResponse || !tokenExchangeResponse.token]. *)
Definition exchangedToken (r : option TokenResponse) : option string :=
  match r with
  | Some t =>
      match tr_token t with
      | Some tok => if String.eqb tok "" then None else Some tok
      | None => None
      end
  | None => None
  end.

(** The verification-invoke branch.  [sendActivity] does not throw in this
    model, so the [try] block throws only through [getUserToken], before
    [token] is assigned. *)
Definition recognizeVerificationInvoke (a : Activity) : Eff TurnContext (option TokenResponse) :=
  match value a with
  | None => throw (Err "TypeError: Cannot read property 'state' of undefined")
  | Some v =>
      let code := v !! "state" in
      tryCatch
        (do token <- getUserToken code;
         match token with
         | Some _ => sendActivity (invokeResponse StatusCodes.OK) ;; ret token
         | None => sendActivity (invokeResponse 404) ;; ret token
         end)
        (fun _ => sendActivity (invokeResponse 500) ;; ret None)
  end.

(** The token-exchange-invoke branch. *)
Definition recognizeTokenExchangeInvoke (a : Activity) : Eff TurnContext (option TokenResponse) :=
  match value a with
  | Some v =>
      if negb (isTokenExchangeRequest v) then
        sendActivity
          (getTokenExchangeInvokeResponse StatusCodes.BAD_REQUEST
             (Some missingRequestDetail) None) ;;
        ret None
      else if negb (isString_eq (v !! "connectionName") connection) then
        sendActivity
          (getTokenExchangeInvokeResponse StatusCodes.BAD_REQUEST
             (Some connectionMismatchDetail) None) ;;
        ret None
      else
        match adapter_exchangeToken (adapter host) with
        | None =>
            sendActivity
              (getTokenExchangeInvokeResponse StatusCodes.BAD_GATEWAY
                 (Some unsupportedExchangeDetail) None) ;;
            throw (Err "OAuthPrompt.recognizeToken(): not supported by the current adapter")
        | Some exchange =>
            do tokenExchangeResponse <-
              call (ExchangeToken connection (from_id a) (v !! "token"))
                   (exchange a connection (from_id a) (v !! "token"));
            match exchangedToken tokenExchangeResponse, tokenExchangeResponse with
            | Some tok, Some r =>
                sendActivity
                  (getTokenExchangeInvokeResponse StatusCodes.OK None (v !! "id")) ;;
                ret (Some {| tr_channelId := tr_channelId r;
                             tr_connectionName := tr_connectionName r;
                             tr_token := Some tok;
                             tr_expiration := None |})
            | _, _ =>
                sendActivity
                  (getTokenExchangeInvokeResponse StatusCodes.CONFLICT
                     (Some unableToExchangeDetail) None) ;;
                ret None
            end
        end
  | None =>
      sendActivity
        (getTokenExchangeInvokeResponse StatusCodes.BAD_REQUEST
           (Some missingRequestDetail) None) ;;
      ret None
  end.

Definition recognizeToken : Eff TurnContext PromptRecognizerResult :=
  do a <- gets activity;
  do token <-
    (if isTokenResponseEvent a then
       ret (option_map asTokenResponse (value a))
     else if isTeamsVerificationInvoke a then
       recognizeVerificationInvoke a
     else if isTokenExchangeRequestInvoke a then
       recognizeTokenExchangeInvoke a
     else if ActivityTypes_eqb (type a) Message then
       match execSixDigits (toJsString (text a)) with
       | Some code => getUserToken (Some code)
       | None => ret None
       end
     else ret None);
  ret (recognized_of token).

(** [beginDialog]: the input-hint defaulting of a prompt given as an object. *)
Definition ensureInputHint (p : option Prompt) : option Prompt :=
  match p with
  | Some (PActivity pa) =>
      match p_inputHint pa with
      | Some _ => p
      | None =>
          Some (PActivity {| p_type := p_type pa;
                             p_text := p_text pa;
                             p_inputHint := Some AcceptingInput;
                             p_attachments := p_attachments pa;
                             p_value := p_value pa |})
      end
  | _ => p
  end.

(** The activity the turn has sent last, when its last effect is a send. *)
Definition lastSent (l : list Effect) : option Prompt :=
  match last l with
  | Some (SendActivity a) => Some a
  | _ => None
  end.

(** [msg = {...prompt}] in [sendOAuthCardAsync] copies the members of the
    prompt, not the objects they refer to: when the prompt has an attachments
    array, [msg.attachments] is that very array, and the card pushed onto it
    is on the prompt object as well.  [sharedAttachments stored sent] is the
    prompt object once the message [sent] has been built from it and sent: a
    prompt with an attachments array has the attachments of the message; a
    prompt without one (or a string) is as it was. *)
Definition sharedAttachments (stored sent : option Prompt) : option Prompt :=
  match stored, sent with
  | Some (PActivity pa), Some (PActivity msg) =>
      match p_attachments pa with
      | Some _ =>
          Some (PActivity {| p_type := p_type pa;
                             p_text := p_text pa;
                             p_inputHint := p_inputHint pa;
                             p_attachments := p_attachments msg;
                             p_value := p_value pa |})
      | None => stored
      end
  | _, _ => stored
  end.

Definition with_prompt (st : OAuthPromptState) (p : option Prompt) : OAuthPromptState :=
  {| state := state st;
     options := {| prompt := p; retryPrompt := retryPrompt (options st) |};
     expires := expires st |}.

(** [beginDialog].  [state.options.prompt] is the object handed to
    [sendOAuthCardAsync], so what that call does to the attachments array of
    the prompt shows in the stored options; the prompt and the retry prompt
    are taken to be distinct objects. *)
Definition beginDialog (opts : option PromptOptions) : Eff DialogContext DialogTurnResult :=
  (* Ensure prompts have input hint set *)
  let o :=
    match opts with
    | Some o0 =>
        {| prompt := ensureInputHint (prompt o0);
           retryPrompt := ensureInputHint (retryPrompt o0) |}
    | None => {| prompt := None; retryPrompt := None |}
    end in
  (* Initialize prompt state *)
  let timeout :=
    match timeout (settings this) with
    | Some t => t
    | None => 900000
    end in
  modify (with_state {| state := ∅; options := o; expires := now host + timeout |}) ;;
  (* Attempt to get the users token *)
  do output <- onContext (getUserToken None);
  match output with
  | Some token => endDialog (Some token)
  | None =>
      (* Prompt user to login *)
      do st <- gets activeDialog_state;
      onContext (sendOAuthCardAsync (prompt (options st))) ;;
      modify (fun dc =>
                with_state
                  (with_prompt st
                     (sharedAttachments (prompt (options st))
                        (lastSent (log (context dc)))))
                  dc) ;;
      ret EndOfTurn
  end.

(** A prompt is truthy unless it is the empty string. *)
Definition isTruthyPrompt (p : option Prompt) : bool :=
  match p with
  | Some (PText s) => negb (String.eqb s "")
  | Some (PActivity _) => true
  | None => false
  end.

Definition with_counts (st : OAuthPromptState) (m : gmap string Z) : OAuthPromptState :=
  {| state := m; options := options st; expires := expires st |}.

Fixpoint sendAll (l : list Prompt) : Eff TurnContext unit :=
  match l with
  | [] => ret tt
  | a :: l' => sendActivity a ;; sendAll l'
  end.

(** A call of the validator: what it sends, then its verdict. *)
Definition callValidator (v : PromptValidator) (c : PromptValidatorContext) : Eff TurnContext bool :=
  do run <- call (CallValidator c) (Returned (v c));
  sendAll (vr_replies run) ;;
  fun s => (vr_verdict run, s).

Definition continueDialog : Eff DialogContext DialogTurnResult :=
  (* Recognize token *)
  do recognized <- onContext recognizeToken;
  (* Check for timeout *)
  do st <- gets activeDialog_state;
  do a <- gets (fun dc => activity (context dc));
  let isMessage := ActivityTypes_eqb (type a) Message in
  let hasTimedOut := isMessage && Z.ltb (expires st) (now host) in
  if hasTimedOut then endDialog None
  else
    let counts :=
      match state st !! "attemptCount" with
      | Some _ => state st
      | None => <["attemptCount" := 0]> (state st)
      end in
    modify (with_state (with_counts st counts)) ;;
    (* Validate the return value *)
    do isValid <-
      match validator this with
      | Some v =>
          let attemptCount := default 0 (counts !! "attemptCount") + 1 in
          let counts' := <["attemptCount" := attemptCount]> counts in
          modify (with_state (with_counts st counts')) ;;
          do responded <- gets (fun dc => responded (context dc));
          onContext
            (callValidator v
               {| pvc_activity := a;
                  pvc_responded := responded;
                  pvc_recognized := recognized;
                  pvc_state := counts';
                  pvc_options := options st;
                  pvc_attemptCount := attemptCount |})
      | None => ret (succeeded recognized)
      end;
    (* Return recognized value or re-prompt *)
    if isValid then endDialog (r_value recognized)
    else
      do responded <- gets (fun dc => responded (context dc));
      match retryPrompt (options st) with
      | Some p =>
          if negb responded && isMessage && isTruthyPrompt (Some p)
          then onContext (sendActivity p)
          else ret tt
      | None => ret tt
      end ;;
      ret EndOfTurn.

End Methods.

(** *** Vocabulary of the statements *)

(** The context once the turn has performed [effects] on top of what it had
    done, with the [responded] flag as given. *)
Definition performed (c : TurnContext) (effects : list Effect) (responded' : bool) : TurnContext :=
  {| activity := activity c; responded := responded';
     loginTimeout := loginTimeout c; log := (log c ++ effects)%list |}.

Definition notRecognized : PromptRecognizerResult :=
  {| succeeded := false; r_value := None |}.

Definition recognizedToken (t : TokenResponse) : PromptRecognizerResult :=
  {| succeeded := true; r_value := Some t |}.

(** The four recognition paths of the specification. *)
Inductive RecognitionPath :=
  | EventToken
  | VerificationInvoke
  | ExchangeInvoke
  | SixDigitText.

(** Whether an activity matches a path, taken on its own. *)
Definition matchesPath (host : Host) (p : RecognitionPath) (a : Activity) : bool :=
  match p with
  | EventToken => isTokenResponseEvent host a
  | VerificationInvoke => isTeamsVerificationInvoke host a
  | ExchangeInvoke => isTokenExchangeRequestInvoke host a
  | SixDigitText =>
      ActivityTypes_eqb (type a) Message
      && match execSixDigits (toJsString (text a)) with
         | Some _ => true
         | None => false
         end
  end.

(** The specification's routing: the paths in priority order, and the path
    of an activity the first one it matches. *)
Definition priorityOrder : list RecognitionPath :=
  [EventToken; VerificationInvoke; ExchangeInvoke; SixDigitText].

Definition selectedPath (host : Host) (a : Activity) : option RecognitionPath :=
  find (fun p => matchesPath host p a) priorityOrder.

(** The effects a path performs on an activity: the event path none; the
    verification path a token lookup with the code of the payload and plain
    invoke replies; the exchange path the provider's exchange and invoke
    replies with a body; the text path a token lookup with the six digits. *)
Definition effectOfPath (this : OAuthPrompt) (p : RecognitionPath) (a : Activity)
    (e : Effect) : Prop :=
  match p, e with
  | VerificationInvoke, GetUserToken conn code =>
      conn = connection this /\ code = value a ≫= (fun v => v !! "state")
  | VerificationInvoke, SendActivity r => exists status, r = invokeResponse status
  | ExchangeInvoke, ExchangeToken conn user token =>
      conn = connection this /\ user = from_id a
      /\ token = value a ≫= (fun v => v !! "token")
  | ExchangeInvoke, SendActivity r =>
      exists status detail id, r = getTokenExchangeInvokeResponse this status detail id
  | SixDigitText, GetUserToken conn code =>
      conn = connection this /\ code = execSixDigits (toJsString (text a))
  | _, _ => False
  end.

(** The counter as the prompt reads it: an absent counter counts as 0. *)
Definition attemptCountOf (st : OAuthPromptState) : Z :=
  default 0 (state st !! "attemptCount").

Definition setAttemptCount (st : OAuthPromptState) (n : Z) : OAuthPromptState :=
  with_counts st (<["attemptCount" := n]> (state st)).

(** [hasTimedOut] of [continueDialog]. *)
Definition hasTimedOut (host : Host) (dc : DialogContext) : bool :=
  ActivityTypes_eqb (type (activity (context dc))) Message
  && Z.ltb (expires (activeDialog_state dc)) (now host).

(** The argument of the validator call of a turn: [n] is the incremented
    counter, [c] the context recognition left. *)
Definition validatorContext (st : OAuthPromptState) (c : TurnContext)
    (recognized : PromptRecognizerResult) (n : Z) : PromptValidatorContext :=
  {| pvc_activity := activity c;
     pvc_responded := responded c;
     pvc_recognized := recognized;
     pvc_state := <["attemptCount" := n]> (state st);
     pvc_options := options st;
     pvc_attemptCount := n |}.

(** Whether one of the activities counts as a response. *)
Definition respondsTo (l : list Prompt) : bool :=
  existsb (fun a => negb (isTraceActivity a)) l.

(** The context after a call of the validator with [vc]. *)
Definition afterValidator (v : PromptValidator) (vc : PromptValidatorContext)
    (c : TurnContext) : TurnContext :=
  performed c (CallValidator vc :: map SendActivity (vr_replies (v vc)))
    (responded c || respondsTo (vr_replies (v vc))).

(** The three conditions of the retry prompt, at the time of the check. *)
Definition retryDue (st : OAuthPromptState) (c : TurnContext) : bool :=
  negb (responded c)
  && ActivityTypes_eqb (type (activity c)) Message
  && isTruthyPrompt (retryPrompt (options st)).

(** The context after the retry step. *)
Definition afterRetry (st : OAuthPromptState) (c : TurnContext) : TurnContext :=
  match retryPrompt (options st) with
  | Some p =>
      if retryDue st c
      then performed c [SendActivity p] (responded c || negb (isTraceActivity p))
      else c
  | None => c
  end.

(** The same host at another clock reading. *)
Definition at_time (host : Host) (clock : Z) : Host :=
  {| adapter := adapter host;
     now := clock;
     tokenResponseEventName := tokenResponseEventName host;
     verifyStateOperationName := verifyStateOperationName host;
     tokenExchangeOperationName := tokenExchangeOperationName host;
     botIsSkill := botIsSkill host |}.

Fixpoint allDigits (s : string) : bool :=
  match s with
  | EmptyString => true
  | String c s' => isDigit c && allDigits s'
  end.

(** A message that carries a login card, of either kind. *)
Definition carriesLoginCard (p : Prompt) : Prop :=
  exists msg attachments,
    p = PActivity msg
    /\ p_attachments msg = Some attachments
    /\ hasCard oauthCard attachments || hasCard signinCard attachments = true.

(** A string of exactly six decimal digits. *)
Definition sixDigits (s : string) : Prop :=
  String.length s = 6%nat /\ allDigits s = true.

(** *** Vocabulary for the sign-in card and for several turns *)

(** The outgoing message [sendOAuthCardAsync] starts from. *)
Definition promptMessage (prompt : option Prompt) : PartialActivity :=
  match prompt with
  | Some (PActivity pa) => pa
  | Some (PText s) => MessageFactory_text (Some s)
  | None => MessageFactory_text None
  end.

(** [msg.attachments], an absent list read as empty. *)
Definition attachmentsOf (msg : PartialActivity) : list Attachment :=
  match p_attachments msg with
  | Some l => l
  | None => []
  end.

(** The condition under which the OAuth card carries the sign-in link: the
    bot is a skill, the activity came over a streaming connection, or the
    settings carry app credentials. *)
Definition usesSignInLink (this : OAuthPrompt) (host : Host) (a : Activity) : bool :=
  botIsSkill host || isFromStreamingConnection a
  || match oAuthAppCredentials (settings this) with
     | Some _ => true
     | None => false
     end.

(** The card [sendOAuthCardAsync] appends for a sign-in resource. *)
Definition loginCard (this : OAuthPrompt) (host : Host) (a : Activity)
    (r : SignInResource) : Attachment :=
  if isOAuthCardSupported host a then
    {| contentType := oauthCard;
       content :=
         OAuthCard (connection this) (s_title (settings this)) (s_text (settings this))
           (if usesSignInLink this host a then signInLink r else None)
           (tokenExchangeResource r)
           (if usesSignInLink this host a then
              match channelId a with
              | Emulator => OpenUrl
              | _ => Signin
              end
            else Signin) |}
  else
    {| contentType := signinCard;
       content :=
         SigninCard (s_title (settings this)) (signInLink r) (s_text (settings this)) |}.

(** The login timeout in turn state once the card has been sent. *)
Definition nextLoginTimeout (this : OAuthPrompt) (c : TurnContext) : option Z :=
  if negb (isTruthyNumber (loginTimeout c)) && isTruthyNumber (timeout (settings this))
  then timeout (settings this)
  else loginTimeout c.

(** The activities sent among some effects, in order. *)
Fixpoint sentActivities (l : list Effect) : list Prompt :=
  match l with
  | [] => []
  | SendActivity a :: l' => a :: sentActivities l'
  | _ :: l' => sentActivities l'
  end.

(** Successive continue turns of one dialog instance, each with the host
    (the clock) and the context of its turn: the state carries over for as
    long as the prompt waits; a turn that completes the prompt or throws ends
    the sequence ([None]). *)
Fixpoint continueTurns (this : OAuthPrompt) (turns : list (Host * TurnContext))
    (st : OAuthPromptState) : option OAuthPromptState :=
  match turns with
  | [] => Some st
  | (host, c) :: rest =>
      match continueDialog this host {| context := c; activeDialog_state := st |} with
      | (Returned EndOfTurn, dc') => continueTurns this rest (activeDialog_state dc')
      | _ => None
      end
  end.

(** There are six digits in a row somewhere in [s]. *)
Definition hasSixDigits (s : string) : Prop :=
  exists pre d post, s = String.append pre (String.append d post) /\ sixDigits d.

(** How [beginDialog] stores a prompt it was given: a string or an absent
    prompt as it is; an activity with its input hint, or with
    [AcceptingInput] when it has none, and otherwise unchanged. *)
Definition storedWithHint (given stored : option Prompt) : Prop :=
  match given with
  | Some (PActivity pa) =>
      exists pa',
        stored = Some (PActivity pa')
        /\ p_inputHint pa' = Some (default AcceptingInput (p_inputHint pa))
        /\ p_type pa' = p_type pa /\ p_text pa' = p_text pa
        /\ p_attachments pa' = p_attachments pa /\ p_value pa' = p_value pa
  | _ => stored = given
  end.

(** The prompt state [beginDialog] sets up before it asks for the token. *)
Definition initialState (this : OAuthPrompt) (host : Host) (opts : option PromptOptions)
    : OAuthPromptState :=
  {| state := ∅;
     options :=
       match opts with
       | Some o0 =>
           {| prompt := ensureInputHint (prompt o0);
              retryPrompt := ensureInputHint (retryPrompt o0) |}
       | None => {| prompt := None; retryPrompt := None |}
       end;
     expires := now host + match timeout (settings this) with
                           | Some t => t
                           | None => 900000
                           end |}.

(** An integer in the range in which JavaScript numbers are exact. *)
Definition safeInteger (z : Z) : Prop :=
  - 9007199254740992 <= z <= 9007199254740992.

End OAuthPrompt.

(** ** Module DialogManager *)

Module DialogManager.

Inductive DialogTurnStatus := empty | waiting | complete | cancelled.

Record DialogTurnResult := {
  status : DialogTurnStatus;
  result : option string
}.

(** [DialogInstance]: one activation of a dialog, with its private state. *)
Record DialogInstance := {
  id : string;
  state : gmap string string
}.

(** [DialogState]: the dialog stack; the last element is the active dialog. *)
Abbreviation DialogState := (list DialogInstance).

(** The conversation state object, with the two properties the manager
    creates: [_lastAccess] (an ISO-8601 timestamp, kept here as the instant
    in milliseconds that [new Date(...)] reads back from it) and [_dialogs].
    A property that has not been set is [None]. *)
Record ConversationState := {
  _lastAccess : option Z;
  _dialogs : option DialogState
}.

Record DialogEvent := {
  ev_name : string;
  ev_value : JsError
}.

Module DialogEvents.
Definition error : string := "error".
End DialogEvents.

Record DialogManagerResult := {
  turnResult : DialogTurnResult
}.

(** What a turn of the manager does outside the dialog stack, oldest first.
    The payload of [SendTrace] stands for the memory snapshot the trace
    carries; of the scopes of that snapshot the model has the conversation
    state only, and that is all the payload shows. *)
Inductive Effect :=
  | HandleEvent (dialogId : string) (e : DialogEvent)
  | SaveAllChanges (saved : ConversationState)
  | SendTrace (snapshot : ConversationState).

(** The inbound activity and the two clock readings of a turn: the
    [new Date()] that supplies the default of [_lastAccess], and [now]. *)
Record TurnInput := {
  activity : string;
  clock_default : Z;
  clock_now : Z
}.

(** The registered dialogs, through what [DialogContext] does with them.  A
    dialog reads and writes the dialog stack only (its own state); a call
    returns or throws, and leaves the stack as it made it. *)
Record DialogSet := {
  continueDialog : TurnInput -> Eff DialogState DialogTurnResult;
  beginDialog : string -> TurnInput -> Eff DialogState DialogTurnResult;
  onDialogEvent : DialogInstance -> DialogEvent -> DialogState -> bool * DialogState
}.

Record DialogManager := {
  dialogSet : DialogSet;
  rootDialogId : option string;
  conversationState : bool;
  expireAfter : option Z
}.

(** The store behind the conversation state, the copy cached for the turn,
    and the log. *)
Record World := {
  storage : ConversationState;
  cache : ConversationState;
  log : list Effect
}.

Definition with_cache (c : ConversationState) (w : World) : World :=
  {| storage := storage w; cache := c; log := log w |}.

Definition with_log (w : World) (l : list Effect) : World :=
  {| storage := storage w; cache := cache w; log := l |}.

Definition dialogStack (c : ConversationState) : DialogState :=
  match _dialogs c with
  | Some st => st
  | None => []
  end.

Definition with_dialogs (st : DialogState) (w : World) : World :=
  with_cache {| _lastAccess := _lastAccess (cache w); _dialogs := Some st |} w.

(** Runs a method of [DialogContext] on the dialog stack the context holds. *)
Definition onStack {A} (m : Eff DialogState A) : Eff World A :=
  zoom (fun w => dialogStack (cache w)) with_dialogs m.

(** Modelled from the spec: the scoped state store of botbuilder-core
    ([BotState] and its property accessors, not part of the sources): a
    key-value abstraction with get, set and clear, loaded at the start of the
    turn and saved at its end.  [get] with a default stores the default when
    the property is absent. *)
Definition load : Eff World unit :=
  modify (fun w => with_cache (storage w) w).

Definition lastAccessProperty_get (default : Z) : Eff World Z :=
  do c <- gets cache;
  match _lastAccess c with
  | Some t => ret t
  | None =>
      modify (with_cache {| _lastAccess := Some default; _dialogs := _dialogs c |}) ;;
      ret default
  end.

Definition lastAccessProperty_set (t : Z) : Eff World unit :=
  modify (fun w => with_cache {| _lastAccess := Some t; _dialogs := _dialogs (cache w) |} w).

Definition conversationState_clear : Eff World unit :=
  modify (with_cache {| _lastAccess := None; _dialogs := None |}).

Definition dialogsProperty_get : Eff World DialogState :=
  do c <- gets cache;
  match _dialogs c with
  | Some st => ret st
  | None =>
      modify (with_cache {| _lastAccess := _lastAccess c; _dialogs := Some [] |}) ;;
      ret []
  end.

Definition saveAllChanges : Eff World unit :=
  modify (fun w =>
            {| storage := cache w; cache := cache w;
               log := log w ++ [SaveAllChanges (cache w)] |}).

(** [dc.context.sendActivity({ type: 'trace', name: 'BotState', value:
    snapshot, ... })] with [snapshot = dc.state.getMemorySnapshot()], a
    snapshot of all memory scopes (the state manager is not part of the
    sources).  The world has one of these scopes, the conversation state, so
    the logged payload is that scope as it is when the trace is sent; it is
    not the whole snapshot. *)
Definition sendTrace : Eff World unit :=
  modify (fun w => with_log w (log w ++ [SendTrace (cache w)])).

(** Modelled from the spec: [DialogContext.emitEvent(name, value, bubble,
    fromLeaf)] (dialogContext.ts is not part of the sources).  Dispatch starts
    at the leaf (the top of the stack) if [fromLeaf], else at the dialog that
    raised the event ([origin] frames below the top); the handler of that
    dialog is invoked; if it does not handle the event and [bubble] is set,
    the event goes to the next dialog down; the result tells whether a
    handler consumed it. *)
Fixpoint dispatch (ds : DialogSet) (e : DialogEvent) (bubble : bool)
    (frames : list DialogInstance) : Eff World bool :=
  match frames with
  | [] => ret false
  | f :: below =>
      do handled <-
        (modify (fun w => with_log w (log w ++ [HandleEvent (id f) e])) ;;
         onStack (fun st => let (h, st') := onDialogEvent ds f e st in (Returned h, st')));
      if handled then ret true
      else if bubble then dispatch ds e bubble below
      else ret false
  end.

Definition emitEvent (ds : DialogSet) (name : string) (value : JsError)
    (bubble fromLeaf : bool) (origin : nat) : Eff World bool :=
  do st <- gets (fun w => dialogStack (cache w));
  let leafFirst := rev st in
  dispatch ds {| ev_name := name; ev_value := value |} bubble
    (if fromLeaf then leafFirst else drop origin leafFirst).

(** [dc.activeDialog] *)
Definition activeDialog (st : DialogState) : option DialogInstance := last st.

Section OnTurn.

Variable this : DialogManager.
Variable input : TurnInput.

Definition isConfigured (x : option string) : bool :=
  match x with
  | Some s => negb (String.eqb s "")
  | None => false
  end.

(** [onTurn] up to the creation of the dialog context.  The copy of the
    initial turn state and the loading of the memory scopes touch neither the
    conversation state nor the dialog stack and are left out. *)
Definition prepareTurn : Eff World unit :=
  (* Ensure properly configured *)
  (if negb (isConfigured (rootDialogId this))
   then throw (Err "DialogManager.onTurn: the bots 'rootDialog' has not been configured.")
   else ret tt) ;;
  (if negb (conversationState this)
   then throw (Err "DialogManager.onTurn: the bots 'conversationState' has not been configured.")
   else ret tt) ;;
  (* Get last access *)
  load ;;
  do lastAccess <- lastAccessProperty_get (clock_default input);
  (* Check for expired conversation *)
  let now := clock_now input in
  (match expireAfter this with
   | Some e =>
       if Z.leb e (now - lastAccess)
       then (* Clear conversation state *) conversationState_clear
       else ret tt
   | None => ret tt
   end) ;;
  (* Update last access time *)
  lastAccessProperty_set lastAccess ;;
  (* get dialog stack *)
  do _ <- dialogsProperty_get;
  ret tt.

(** The body of the [try] block. *)
Definition runDialogs : Eff World DialogTurnResult :=
  let root := default "" (rootDialogId this) in
  do st <- gets (fun w => dialogStack (cache w));
  match activeDialog st with
  | Some _ =>
      (* Continue dialog execution *)
      do turnResult <- onStack (continueDialog (dialogSet this) input);
      match status turnResult with
      | empty =>
          (* Begin root dialog *)
          onStack (beginDialog (dialogSet this) root input)
      | _ => ret turnResult
      end
  | None => onStack (beginDialog (dialogSet this) root input)
  end.

(** [while (true) { try { ...; break; } catch (err) { ... } }].  Each round
    uses one unit of [fuel]; the loop has no bound of its own. *)
Fixpoint turnLoop (fuel : nat) (w : World) : option (Outcome DialogTurnResult * World) :=
  match fuel with
  | O => None
  | S fuel' =>
      match runDialogs w with
      | (Returned turnResult, w') => Some (Returned turnResult, w')
      | (Thrown err, w') =>
          match emitEvent (dialogSet this) DialogEvents.error err true true 0 w' with
          | (Returned true, w'') => turnLoop fuel' w''
          | (Returned false, w'') => Some (Thrown err, w'')
          | (Thrown err', w'') => Some (Thrown err', w'')
          end
      end
  end.

(** [onTurn] after the loop. *)
Definition finishTurn (turnResult : DialogTurnResult) : Eff World DialogManagerResult :=
  (* Save any memory changes *)
  saveAllChanges ;;
  (* Send trace of memory to emulator *)
  sendTrace ;;
  ret {| turnResult := turnResult |}.

Definition onTurn (fuel : nat) (w : World) : option (Outcome DialogManagerResult * World) :=
  match prepareTurn w with
  | (Thrown e, w1) => Some (Thrown e, w1)
  | (Returned _, w1) =>
      match turnLoop fuel w1 with
      | None => None
      | Some (Thrown e, w2) => Some (Thrown e, w2)
      | Some (Returned turnResult, w2) => Some (finishTurn turnResult w2)
      end
  end.

End OnTurn.

(** A conversation: the turns of [inputs] one after the other, each on the
    store the one before left. *)
Fixpoint runTurns (this : DialogManager) (fuel : nat) (inputs : list TurnInput)
    (w : World) : option World :=
  match inputs with
  | [] => Some w
  | input :: rest =>
      match onTurn this input fuel w with
      | Some (_, w') => runTurns this fuel rest w'
      | None => None
      end
  end.

(** *** Vocabulary of the statements *)

(** The last access a turn loads: the stored one, or the clock reading that
    serves as default when none is stored. *)
Definition loadedLastAccess (input : TurnInput) (w : World) : Z :=
  default (clock_default input) (_lastAccess (storage w)).

(** The expiry check of a turn. *)
Definition hasExpired (this : DialogManager) (input : TurnInput) (w : World) : bool :=
  match expireAfter this with
  | Some e => Z.leb e (clock_now input - loadedLastAccess input w)
  | None => false
  end.

(** The world in which the dialogs of a turn run. *)
Definition prepared (this : DialogManager) (input : TurnInput) (w : World) : World :=
  {| storage := storage w;
     cache :=
       {| _lastAccess := Some (loadedLastAccess input w);
          _dialogs :=
            Some (if hasExpired this input w then [] else dialogStack (storage w)) |};
     log := log w |}.

(** A computation that leaves the store, the last access and the log as they
    are. *)
Definition framed {A} (m : Eff World A) : Prop :=
  forall w,
    storage (snd (m w)) = storage w
    /\ _lastAccess (cache (snd (m w))) = _lastAccess (cache w)
    /\ log (snd (m w)) = log w.

(** The event the manager raises for an error. *)
Definition errorEvent (err : JsError) : DialogEvent :=
  {| ev_name := DialogEvents.error; ev_value := err |}.

(** The handler invocations on the first [k] of [frames]. *)
Definition handlersAsked (e : DialogEvent) (k : nat) (frames : list DialogInstance) : list Effect :=
  map (fun f => HandleEvent (id f) e) (take k frames).

(** An effect of the error event bus, as opposed to a save or a trace. *)
Definition isHandlerCall (e : Effect) : Prop :=
  exists dialogId ev, e = HandleEvent dialogId ev.

End DialogManager.

(** ** Scenarios

    Concrete prompts, adapters, activities and dialogs, in the shape of the
    scenarios of the specification (connection "Contoso", timeout 1000 ms). *)

Module Scenarios.

Import OAuthPrompt.

Definition contosoToken : TokenResponse :=
  {| tr_channelId := Some "test";
     tr_connectionName := Some "Contoso";
     tr_token := Some "secret";
     tr_expiration := None |}.

(** An adapter whose provider holds a token for the magic code 482913 and
    exchanges the channel token "x". *)
Definition testAdapter : BotAdapter :=
  {| adapter_name := None;
     adapter_getUserToken :=
       Some (fun _ _ code =>
               if isString_eq code "482913" then Returned (Some contosoToken)
               else Returned None);
     adapter_getSignInResource :=
       fun _ _ _ =>
         Returned {| signInLink := Some "https://login.example/signin";
                     tokenExchangeResource := None |};
     adapter_exchangeToken :=
       Some (fun _ _ _ token =>
               if isString_eq token "x" then Returned (Some contosoToken)
               else Returned None) |}.

(** An adapter whose provider already holds the user's token. *)
Definition signedInAdapter : BotAdapter :=
  {| adapter_name := None;
     adapter_getUserToken := Some (fun _ _ _ => Returned (Some contosoToken));
     adapter_getSignInResource := adapter_getSignInResource testAdapter;
     adapter_exchangeToken := adapter_exchangeToken testAdapter |}.

(** An adapter whose provider is unreachable. *)
Definition failingAdapter : BotAdapter :=
  {| adapter_name := None;
     adapter_getUserToken := Some (fun _ _ _ => Thrown (Err "provider unreachable"));
     adapter_getSignInResource := adapter_getSignInResource testAdapter;
     adapter_exchangeToken := adapter_exchangeToken testAdapter |}.

(** An adapter without [exchangeToken]. *)
Definition plainAdapter : BotAdapter :=
  {| adapter_name := None;
     adapter_getUserToken := adapter_getUserToken testAdapter;
     adapter_getSignInResource := adapter_getSignInResource testAdapter;
     adapter_exchangeToken := None |}.

Definition hostWith (ad : BotAdapter) (clock : Z) : Host :=
  {| adapter := ad;
     now := clock;
     tokenResponseEventName := "tokens/response";
     verifyStateOperationName := "signin/verifyState";
     tokenExchangeOperationName := "signin/tokenExchange";
     botIsSkill := false |}.

Definition contosoSettings : OAuthPromptSettings :=
  {| oAuthAppCredentials := None;
     s_connectionName := "Contoso";
     s_title := "Sign in";
     s_text := None;
     timeout := Some 1000 |}.

Definition contoso : OAuthPrompt :=
  {| settings := contosoSettings; validator := None |}.

(** A validator that accepts any recognized token and says nothing. *)
Definition acceptRecognized : PromptValidator :=
  fun c => {| vr_replies := []; vr_verdict := Returned (succeeded (pvc_recognized c)) |}.

(** A validator that rejects everything and answers by itself. *)
Definition rejectAndReply : PromptValidator :=
  fun c => {| vr_replies := [PText "Please sign in."]; vr_verdict := Returned false |}.

Definition contosoWith (v : PromptValidator) : OAuthPrompt :=
  {| settings := contosoSettings; validator := Some v |}.

Definition messageActivity (t : string) : Activity :=
  {| type := Message; name := None; text := Some t; value := None;
     channelId := OtherChannel "test"; serviceUrl := None; from_id := "user1" |}.

Definition invokeActivity (n : string) (v : JsObject) : Activity :=
  {| type := Invoke; name := Some n; text := None; value := Some v;
     channelId := Msteams; serviceUrl := None; from_id := "user1" |}.

Definition eventActivity (n : string) (t : option string) (v : JsObject) : Activity :=
  {| type := Event; name := Some n; text := t; value := Some v;
     channelId := OtherChannel "test"; serviceUrl := None; from_id := "user1" |}.

Definition freshContext (a : Activity) : TurnContext :=
  {| activity := a; responded := false; loginTimeout := None; log := [] |}.

Definition retryOptions : PromptOptions :=
  {| prompt := None; retryPrompt := Some (PText "Please use the sign-in card.") |}.

(** The prompt state a [beginDialog] at time 0 leaves, and the dialog context
    of a later turn. *)
Definition waitingState : OAuthPromptState :=
  {| state := ∅; options := retryOptions; expires := 1000 |}.

Definition turnOf (a : Activity) : DialogContext :=
  {| context := freshContext a; activeDialog_state := waitingState |}.

Definition exchangeRequest (connectionName token : string) : JsObject :=
  <["id" := "request-7"]> (<["connectionName" := connectionName]> (<["token" := token]> ∅)).

Definition tokenPayload : JsObject :=
  <["connectionName" := "Contoso"]> (<["token" := "secret"]> ∅).

(** A caller's prompt that already carries an OAuth card. *)
Definition ownCard : Attachment :=
  {| contentType := oauthCard;
     content := OAuthCard "Contoso" "My own card" None None None Signin |}.

Definition promptWithCard : Prompt :=
  PActivity {| p_type := Some Message;
               p_text := Some "Please sign in";
               p_inputHint := Some ExpectingInput;
               p_attachments := Some [ownCard];
               p_value := None |}.

(** A prompt that brings an attachments array without a login card. *)
Definition heroCard : Attachment :=
  {| contentType := otherContentType "application/vnd.microsoft.card.hero";
     content := OtherCard |}.

Definition promptWithHeroCard : Prompt :=
  PActivity {| p_type := Some Message;
               p_text := Some "Please sign in";
               p_inputHint := None;
               p_attachments := Some [heroCard];
               p_value := None |}.

(** A turn on the emulator, with app credentials in the settings. *)
Definition emulatorActivity : Activity :=
  {| type := Message; name := None; text := Some "hi"; value := None;
     channelId := Emulator; serviceUrl := Some "http://localhost:3978";
     from_id := "user1" |}.

Definition contosoWithCredentials : OAuthPrompt :=
  {| settings :=
       {| oAuthAppCredentials := Some "app-credentials";
          s_connectionName := "Contoso";
          s_title := "Sign in";
          s_text := None;
          timeout := Some 1000 |};
     validator := None |}.

(** A context in which a login timeout is already in turn state. *)
Definition contextWithTimeout (a : Activity) : TurnContext :=
  {| activity := a; responded := false; loginTimeout := Some 5000; log := [] |}.

(** A verification invoke that carries no value. *)
Definition bareVerificationInvoke : Activity :=
  {| type := Invoke; name := Some "signin/verifyState"; text := None; value := None;
     channelId := Msteams; serviceUrl := None; from_id := "user1" |}.

(** An adapter without [getUserToken]. *)
Definition bareAdapter : BotAdapter :=
  {| adapter_name := None;
     adapter_getUserToken := None;
     adapter_getSignInResource := adapter_getSignInResource testAdapter;
     adapter_exchangeToken := None |}.

(** A community adapter. *)
Definition facebookAdapter : BotAdapter :=
  {| adapter_name := Some "Facebook Adapter";
     adapter_getUserToken := adapter_getUserToken testAdapter;
     adapter_getSignInResource := adapter_getSignInResource testAdapter;
     adapter_exchangeToken := None |}.

End Scenarios.

(** ** Scenarios of the turn driver *)

Module ManagerScenarios.

Import DialogManager.

Definition waitingResult : DialogTurnResult :=
  {| status := waiting; result := None |}.

Definition push (dialogId : string) (st : DialogState) : DialogState :=
  (st ++ [ {| id := dialogId; state := ∅ |} ])%list.

(** A root dialog that starts and then waits, turn after turn. *)
Definition steady : DialogSet :=
  {| continueDialog := fun _ => ret waitingResult;
     beginDialog := fun dialogId _ st => (Returned waitingResult, push dialogId st);
     onDialogEvent := fun _ _ st => (false, st) |}.

(** A root dialog whose start fails once it is on the stack, with nobody to
    handle the error. *)
Definition fragile : DialogSet :=
  {| continueDialog := fun _ => ret waitingResult;
     beginDialog := fun dialogId _ st => (Thrown (Err "first failure"), push dialogId st);
     onDialogEvent := fun _ _ st => (false, st) |}.

(** The same dialog with an error handler: the error is consumed and the
    dialog waits when it is continued. *)
Definition recovering : DialogSet :=
  {| continueDialog := fun _ => ret waitingResult;
     beginDialog := fun dialogId _ st => (Thrown (Err "first failure"), push dialogId st);
     onDialogEvent := fun _ _ st => (true, st) |}.

(** A dialog whose handler consumes the failure of its start, and which
    fails again, differently, when it is continued. *)
Definition flaky : DialogSet :=
  {| continueDialog := fun _ st => (Thrown (Err "second failure"), st);
     beginDialog := fun dialogId _ st => (Thrown (Err "first failure"), push dialogId st);
     onDialogEvent :=
       fun _ e st =>
         (match ev_value e with
          | Err m => String.eqb m "first failure"
          end, st) |}.

Definition managerOf (ds : DialogSet) (expire : option Z) : DialogManager :=
  {| dialogSet := ds;
     rootDialogId := Some "root";
     conversationState := true;
     expireAfter := expire |}.

Definition emptyStore : ConversationState :=
  {| _lastAccess := None; _dialogs := None |}.

Definition newWorld : World :=
  {| storage := emptyStore; cache := emptyStore; log := [] |}.

Definition turnAt (t : Z) : TurnInput :=
  {| activity := "hi"; clock_default := t; clock_now := t |}.

Definition rootOnStack : DialogState := push "root" [].

(** The world of the flaky dialog after its start has failed. *)
Definition afterFirstFailure : World :=
  {| storage := emptyStore;
     cache := {| _lastAccess := Some 0; _dialogs := Some rootOnStack |};
     log := [] |}.

(** The conversation after a first turn at time 0 with the steady dialog. *)
Definition afterFirstTurn : World :=
  {| storage := {| _lastAccess := Some 0; _dialogs := Some rootOnStack |};
     cache := {| _lastAccess := Some 0; _dialogs := Some rootOnStack |};
     log := [] |}.

(** A dialog that fails whenever it is run, with a handler that consumes
    every error. *)
Definition stubborn : DialogSet :=
  {| continueDialog := fun _ st => (Thrown (Err "again"), st);
     beginDialog := fun dialogId _ st => (Thrown (Err "again"), push dialogId st);
     onDialogEvent := fun _ _ st => (true, st) |}.

(** A manager whose root dialog was never set. *)
Definition rootless : DialogManager :=
  {| dialogSet := steady;
     rootDialogId := None;
     conversationState := true;
     expireAfter := None |}.

(** The world a first turn at time 0 with the steady dialog leaves. *)
Definition afterSteadyTurn : World :=
  {| storage := {| _lastAccess := Some 0; _dialogs := Some rootOnStack |};
     cache := {| _lastAccess := Some 0; _dialogs := Some rootOnStack |};
     log :=
       [ SaveAllChanges {| _lastAccess := Some 0; _dialogs := Some rootOnStack |};
         SendTrace {| _lastAccess := Some 0; _dialogs := Some rootOnStack |} ] |}.

(** The world after two more turns of the steady dialog, each of which found
    the conversation expired and saved a fresh stack. *)
Definition afterExpiredTurns : World :=
  {| storage := {| _lastAccess := Some 0; _dialogs := Some rootOnStack |};
     cache := {| _lastAccess := Some 0; _dialogs := Some rootOnStack |};
     log :=
       [ SaveAllChanges {| _lastAccess := Some 0; _dialogs := Some rootOnStack |};
         SendTrace {| _lastAccess := Some 0; _dialogs := Some rootOnStack |};
         SaveAllChanges {| _lastAccess := Some 0; _dialogs := Some rootOnStack |};
         SendTrace {| _lastAccess := Some 0; _dialogs := Some rootOnStack |} ] |}.

End ManagerScenarios.

(** * Properties of the OAuthPrompt *)

Module OAuthPromptProperties.

Import OAuthPrompt.

Lemma ActivityTypes_eqb_eq (a b : ActivityTypes) :
  ActivityTypes_eqb a b = true <-> a = b.
Proof.
  split.
  - destruct a, b; simpl; try discriminate; try reflexivity.
    intros H. apply String.eqb_eq in H. now subst.
  - intros ->. destruct b; simpl; try reflexivity. apply String.eqb_refl.
Qed.

Lemma invoke_is_no_event (host : Host) (a : Activity) :
  type a = Invoke -> isTokenResponseEvent host a = false.
Proof. unfold isTokenResponseEvent. now intros ->. Qed.

Lemma verification_is_invoke (host : Host) (a : Activity) :
  isTeamsVerificationInvoke host a = true -> type a = Invoke.
Proof.
  unfold isTeamsVerificationInvoke. intros H.
  apply andb_true_iff in H as [H _]. now apply ActivityTypes_eqb_eq.
Qed.

Lemma exchange_is_invoke (host : Host) (a : Activity) :
  isTokenExchangeRequestInvoke host a = true -> type a = Invoke.
Proof.
  unfold isTokenExchangeRequestInvoke. intros H.
  apply andb_true_iff in H as [H _]. now apply ActivityTypes_eqb_eq.
Qed.

(** Unfolds the plumbing of the effect monad. *)
Ltac run :=
  unfold bind, ret, throw, gets, modify, tryCatch, call, sendActivity,
    onContext, zoom, endDialog; simpl.

(** How [recognizeToken] selects its branch. *)
Lemma recognizeToken_verification (this : OAuthPrompt) (host : Host) (c : TurnContext) :
  isTeamsVerificationInvoke host (activity c) = true ->
  recognizeToken this host c =
  (do token <- recognizeVerificationInvoke this host (activity c);
   ret (recognized_of token)) c.
Proof.
  intros H. unfold recognizeToken. run.
  rewrite (invoke_is_no_event host _ (verification_is_invoke host _ H)), H.
  reflexivity.
Qed.

Lemma recognizeToken_exchange (this : OAuthPrompt) (host : Host) (c : TurnContext) :
  isTeamsVerificationInvoke host (activity c) = false ->
  isTokenExchangeRequestInvoke host (activity c) = true ->
  recognizeToken this host c =
  (do token <- recognizeTokenExchangeInvoke this host (activity c);
   ret (recognized_of token)) c.
Proof.
  intros Hv H. unfold recognizeToken. run.
  rewrite (invoke_is_no_event host _ (exchange_is_invoke host _ H)), Hv, H.
  reflexivity.
Qed.

(** C6: a Teams verification invoke that carries a value has its code
    exchanged through the provider's [getUserToken], and the invoke is
    answered once, with an [invokeResponse] activity whose value is the
    status and nothing else: 200 when a token comes back (and the token is
    recognized), 404 when none comes back, 500 when the lookup throws (or the
    adapter has no [getUserToken]); in the last case the error is swallowed:
    [recognizeToken] returns, with no token recognized. *)
Theorem C6_verification_invoke_replies
    (this : OAuthPrompt) (host : Host) (c : TurnContext) (v : JsObject) :
  isTeamsVerificationInvoke host (activity c) = true ->
  value (activity c) = Some v ->
  let code := v !! "state" in
  let connectionName := s_connectionName (settings this) in
  let lookedUp := GetUserToken connectionName code in
  let reply (code : Z) :=
    SendActivity
      (PActivity
         {| p_type := Some InvokeResponse;
            p_text := None;
            p_inputHint := None;
            p_attachments := None;
            p_value := Some {| status := code; body := None |} |}) in
  match adapter_getUserToken (adapter host) with
  | Some lookup =>
      match lookup (activity c) connectionName code with
      | Returned (Some token) =>
          recognizeToken this host c =
          (Returned (recognizedToken token), performed c [lookedUp; reply 200] true)
      | Returned None =>
          recognizeToken this host c =
          (Returned notRecognized, performed c [lookedUp; reply 404] true)
      | Thrown _ =>
          recognizeToken this host c =
          (Returned notRecognized, performed c [lookedUp; reply 500] true)
      end
  | None =>
      recognizeToken this host c =
      (Returned notRecognized, performed c [reply 500] true)
  end.
Proof.
  intros Hinvoke Hvalue code connectionName lookedUp reply.
  subst code connectionName lookedUp reply.
  rewrite (recognizeToken_verification this host c Hinvoke).
  unfold recognizeVerificationInvoke, getUserToken, connection. rewrite Hvalue.
  destruct (adapter_getUserToken (adapter host)) as [lookup|]; run.
  - destruct (lookup (activity c) (s_connectionName (settings this)) (v !! "state"))
      as [[token|]|e];
      simpl; unfold performed; simpl; rewrite <- ?app_assoc, ?orb_true_r; reflexivity.
  - unfold performed; simpl; rewrite ?orb_true_r; reflexivity.
Qed.

(** An exception that leaves [recognizeToken] leaves [continueDialog]: there
    is no handler around the call. *)
Lemma continueDialog_recognition_throws
    (this : OAuthPrompt) (host : Host) (dc : DialogContext) (e : JsError) (c' : TurnContext) :
  recognizeToken this host (context dc) = (Thrown e, c') ->
  continueDialog this host dc = (Thrown e, with_context c' dc).
Proof.
  intros H. unfold continueDialog. run. rewrite H. reflexivity.
Qed.

Lemma isString_eq_true (x : option string) (s : string) :
  isString_eq x s = true <-> x = Some s.
Proof.
  destruct x as [y|]; simpl.
  - rewrite String.eqb_eq. split; [now intros -> | now intros [= ->]].
  - split; discriminate.
Qed.

(** C3: a token-exchange invoke (one that is not routed to the verification
    path) is checked in this order, with one invoke reply per outcome, an
    [invokeResponse] activity whose value has the status and a body with the
    request id (on success), the configured connection name and the failure
    detail: (i) no [token] member in the payload: 400, missing
    value, nothing recognized; (ii) else a connection name other than the
    configured one: 400, mismatch, nothing recognized; (iii) else an adapter
    without [exchangeToken]: 502, then an error is thrown, which also leaves
    [continueDialog]; (iv) else the provider's [exchangeToken] is called: an
    empty result or one without token gets 409 and nothing is recognized, any
    other result gets 200 with the id of the request and its token is
    recognized. *)
Theorem C3_token_exchange_invoke_checks
    (this : OAuthPrompt) (host : Host) (c : TurnContext) :
  isTeamsVerificationInvoke host (activity c) = false ->
  isTokenExchangeRequestInvoke host (activity c) = true ->
  let a := activity c in
  let connectionName := s_connectionName (settings this) in
  let reply (code : Z) (detail id : option string) :=
    SendActivity
      (PActivity
         {| p_type := Some InvokeResponse;
            p_text := None;
            p_inputHint := None;
            p_attachments := None;
            p_value :=
              Some {| status := code;
                      body := Some {| ter_id := id;
                                      ter_connectionName := connectionName;
                                      ter_failureDetail := detail |} |} |}) in
  let missingValue :=
    "The bot received an InvokeActivity that is missing a TokenExchangeInvokeRequest value. This is required to be sent with the InvokeActivity." in
  let nameMismatch :=
    "The bot received an InvokeActivity with a TokenExchangeInvokeRequest containing a ConnectionName that does not match the ConnectionNameexpected by the bots active OAuthPrompt. Ensure these names match when sending the InvokeActivityInvalid ConnectionName in the TokenExchangeInvokeRequest" in
  let unsupported :=
    "The bot's BotAdapter does not support token exchange operations. Ensure the bot's Adapter supports the ExtendedUserTokenProvider interface." in
  let unableToExchange :=
    "The bot is unable to exchange token. Proceed with regular login." in
  let payloadToken := value a ≫= (fun v => v !! "token") in
  let payloadConnection := value a ≫= (fun v => v !! "connectionName") in
  let payloadId := value a ≫= (fun v => v !! "id") in
  match payloadToken with
  | None =>
      recognizeToken this host c =
      (Returned notRecognized, performed c [reply 400 (Some missingValue) None] true)
  | Some token =>
      if negb (isString_eq payloadConnection connectionName) then
        recognizeToken this host c =
        (Returned notRecognized, performed c [reply 400 (Some nameMismatch) None] true)
      else
        match adapter_exchangeToken (adapter host) with
        | None =>
            let failure :=
              Err "OAuthPrompt.recognizeToken(): not supported by the current adapter" in
            let c' := performed c [reply 502 (Some unsupported) None] true in
            recognizeToken this host c = (Thrown failure, c')
            /\ forall dc, context dc = c ->
                 continueDialog this host dc = (Thrown failure, with_context c' dc)
        | Some exchange =>
            let exchanged := ExchangeToken connectionName (from_id a) (Some token) in
            match exchange a connectionName (from_id a) (Some token) with
            | Returned response =>
                match exchangedToken response, response with
                | Some tok, Some r =>
                    recognizeToken this host c =
                    (Returned
                       (recognizedToken
                          {| tr_channelId := tr_channelId r;
                             tr_connectionName := tr_connectionName r;
                             tr_token := Some tok;
                             tr_expiration := None |}),
                     performed c [exchanged; reply 200 None payloadId] true)
                | _, _ =>
                    recognizeToken this host c =
                    (Returned notRecognized,
                     performed c [exchanged; reply 409 (Some unableToExchange) None] true)
                end
            | Thrown e =>
                recognizeToken this host c =
                (Thrown e, performed c [exchanged] (responded c))
            end
        end
  end.
Proof.
  intros Hverify Hexchange a connectionName reply missingValue nameMismatch
    unsupported unableToExchange payloadToken payloadConnection payloadId.
  subst a connectionName reply missingValue nameMismatch unsupported
    unableToExchange payloadToken payloadConnection payloadId.
  assert (Hdone : forall l, performed c l true =
                    with_responded (with_log c (log c ++ l)) (responded c || true)).
  { intros l. unfold performed, with_responded, with_log. simpl.
    now rewrite orb_true_r. }
  assert (Hthrows : forall e c', recognizeToken this host c = (Thrown e, c') ->
            forall dc, context dc = c ->
              continueDialog this host dc = (Thrown e, with_context c' dc)).
  { intros e c' H dc <-. now apply continueDialog_recognition_throws. }
  revert Hthrows.
  rewrite (recognizeToken_exchange this host c Hverify Hexchange).
  unfold recognizeTokenExchangeInvoke, getTokenExchangeInvokeResponse, connection,
    missingRequestDetail, connectionMismatchDetail, unsupportedExchangeDetail,
    unableToExchangeDetail.
  destruct (value (activity c)) as [v|]; simpl; [|intros _; run; now rewrite Hdone].
  unfold isTokenExchangeRequest.
  destruct (v !! "token") as [token|]; simpl; [|intros _; run; now rewrite Hdone].
  destruct (isString_eq (v !! "connectionName") (s_connectionName (settings this)));
    simpl; [|intros _; run; now rewrite Hdone].
  destruct (adapter_exchangeToken (adapter host)) as [exchange|].
  - intros _. run.
    destruct (exchange (activity c) (s_connectionName (settings this))
                (from_id (activity c)) (Some token))
      as [response|e]; simpl.
    + destruct (exchangedToken response) as [tok|], response as [r|]; simpl;
        unfold performed; simpl; rewrite <- ?app_assoc, ?orb_true_r; reflexivity.
    + reflexivity.
  - intros Hthrows.
    match goal with
    | |- ?l = ?r /\ _ => assert (Hfirst : l = r) by (run; now rewrite Hdone)
    end.
    split; [exact Hfirst|]. now apply Hthrows.
Qed.

Ltac name_effects :=
  match goal with
  | |- exists effects, log ?c = (log ?c ++ effects)%list /\ _ =>
      exists []; split; [now rewrite app_nil_r|]
  | |- exists effects, (log ?c ++ ?l)%list = (log ?c ++ effects)%list /\ _ =>
      exists l; split; [reflexivity|]
  | |- exists effects, ((log ?c ++ ?l1) ++ ?l2)%list = (log ?c ++ effects)%list /\ _ =>
      exists (l1 ++ l2)%list; split; [now rewrite app_assoc|]
  end.

Ltac path_effects :=
  name_effects; repeat constructor; simpl;
  repeat match goal with
         | H : _ = Some _ |- _ => rewrite H
         end;
  simpl; eauto.

(** The case analysis of [recognizeToken]: its branches, and in each the
    outcomes of the collaborator it calls; [finish] closes each case. *)
Ltac recognize_cases this host c finish :=
  unfold recognizeToken; run;
  destruct (isTokenResponseEvent host (activity c)); simpl; [finish|];
  destruct (isTeamsVerificationInvoke host (activity c)); simpl;
  [ unfold recognizeVerificationInvoke, getUserToken;
    destruct (value (activity c)) as [v|] eqn:Hv; run; [|finish];
    destruct (adapter_getUserToken (adapter host)) as [lookup|]; run; [|finish];
    destruct (lookup (activity c) (connection this) (v !! "state")) as [[t|]|e];
    simpl; finish |];
  destruct (isTokenExchangeRequestInvoke host (activity c)); simpl;
  [ unfold recognizeTokenExchangeInvoke, isTokenExchangeRequest;
    destruct (value (activity c)) as [v|] eqn:Hv; run; [|finish];
    destruct (v !! "token") as [token|] eqn:Htoken; run; [|finish];
    destruct (isString_eq (v !! "connectionName") (connection this)); run; [|finish];
    destruct (adapter_exchangeToken (adapter host)) as [exchange|]; run; [|finish];
    destruct (exchange (activity c) (connection this) (from_id (activity c)) (Some token))
      as [response|e]; simpl; [|finish];
    destruct (exchangedToken response) as [tok|], response as [r|]; simpl; finish |];
  destruct (ActivityTypes_eqb (type (activity c)) Message); simpl; [|finish];
  destruct (execSixDigits (toJsString (text (activity c)))) as [code|] eqn:Hcode;
  simpl; [|finish];
  unfold getUserToken;
  destruct (adapter_getUserToken (adapter host)) as [lookup|]; run; [|finish];
  destruct (lookup (activity c) (connection this) (Some code)) as [[t|]|e];
  simpl; finish.

(** C5: [recognizeToken] follows at most one recognition path, the first in
    the order event token, verification invoke, exchange invoke, six-digit
    text that the activity matches: whatever the turn does during
    recognition is an effect of that path, whichever other paths the
    activity matches as well; on the event path nothing is done at all, and
    an activity that matches no path has nothing done and nothing
    recognized. *)
Theorem C5_one_recognition_path_by_priority
    (this : OAuthPrompt) (host : Host) (c : TurnContext) :
  exists effects,
    log (snd (recognizeToken this host c)) = (log c ++ effects)%list
    /\ match selectedPath host (activity c) with
       | Some EventToken =>
           effects = []
           /\ recognizeToken this host c =
              (Returned (recognized_of (asTokenResponse <$> value (activity c))), c)
       | Some p => Forall (effectOfPath this p (activity c)) effects
       | None =>
           effects = [] /\ recognizeToken this host c = (Returned notRecognized, c)
       end.
Proof.
  unfold selectedPath, priorityOrder, find, matchesPath.
  recognize_cases this host c ltac:(path_effects).
Qed.

(** *** What recognition leaves alone *)

Lemma getUserToken_run (this : OAuthPrompt) (host : Host) (code : option string) (c : TurnContext) :
  getUserToken this host code c =
  match adapter_getUserToken (adapter host) with
  | Some lookup =>
      (lookup (activity c) (connection this) code,
       performed c [GetUserToken (connection this) code] (responded c))
  | None =>
      (Thrown (Err "OAuthPrompt.getUserToken(): not supported for the current adapter."), c)
  end.
Proof.
  unfold getUserToken. destruct (adapter_getUserToken (adapter host)); reflexivity.
Qed.

Lemma recognizeToken_activity (this : OAuthPrompt) (host : Host) (c : TurnContext) :
  activity (snd (recognizeToken this host c)) = activity c.
Proof.
  recognize_cases this host c ltac:(reflexivity).
Qed.

Lemma message_is_no_event_or_invoke (host : Host) (a : Activity) :
  type a = Message ->
  isTokenResponseEvent host a = false
  /\ isTeamsVerificationInvoke host a = false
  /\ isTokenExchangeRequestInvoke host a = false.
Proof.
  unfold isTokenResponseEvent, isTeamsVerificationInvoke, isTokenExchangeRequestInvoke.
  now intros ->.
Qed.

(** Recognition of a plain message: a lookup with the six digits of the
    text, when it has six digits in a row. *)
Lemma recognizeToken_message (this : OAuthPrompt) (host : Host) (c : TurnContext) :
  type (activity c) = Message ->
  recognizeToken this host c =
  match execSixDigits (toJsString (text (activity c))) with
  | Some code =>
      (do token <- getUserToken this host (Some code); ret (recognized_of token)) c
  | None => (Returned notRecognized, c)
  end.
Proof.
  intros Hm. unfold recognizeToken. run.
  destruct (message_is_no_event_or_invoke host _ Hm) as (-> & -> & ->).
  rewrite Hm. simpl.
  destruct (execSixDigits (toJsString (text (activity c)))); reflexivity.
Qed.

(** *** [continueDialog], once recognition has returned *)

Lemma performed_nothing (c : TurnContext) : performed c [] (responded c) = c.
Proof. destruct c. unfold performed. simpl. now rewrite app_nil_r. Qed.

Lemma sendAll_run (l : list Prompt) (c : TurnContext) :
  sendAll l c =
  (Returned tt, performed c (map SendActivity l) (responded c || respondsTo l)).
Proof.
  revert c. induction l as [|a l IH]; intros c; simpl.
  - unfold ret. now rewrite orb_false_r, performed_nothing.
  - run. rewrite IH. unfold performed. simpl.
    now rewrite <- app_assoc, orb_assoc.
Qed.

Lemma callValidator_run (v : PromptValidator) (vc : PromptValidatorContext) (c : TurnContext) :
  callValidator v vc c = (vr_verdict (v vc), afterValidator v vc c).
Proof.
  unfold callValidator. run. rewrite sendAll_run.
  unfold afterValidator, performed. simpl. now rewrite <- app_assoc.
Qed.

Lemma counter_initialised (st : OAuthPromptState) :
  match state st !! "attemptCount" with
  | Some _ => state st
  | None => <["attemptCount" := 0]> (state st)
  end = <["attemptCount" := attemptCountOf st]> (state st).
Proof.
  unfold attemptCountOf.
  destruct (state st !! "attemptCount") as [n|] eqn:H; simpl.
  - symmetry. now apply insert_id.
  - reflexivity.
Qed.

Lemma continueDialog_run
    (this : OAuthPrompt) (host : Host) (dc : DialogContext)
    (r : PromptRecognizerResult) (c1 : TurnContext) :
  recognizeToken this host (context dc) = (Returned r, c1) ->
  let st := activeDialog_state dc in
  continueDialog this host dc =
  if hasTimedOut host dc then (Returned (Completed None), with_context c1 dc)
  else
    match validator this with
    | Some v =>
        let n := attemptCountOf st + 1 in
        let vc := validatorContext st c1 r n in
        let c2 := afterValidator v vc c1 in
        let st' := setAttemptCount st n in
        match vr_verdict (v vc) with
        | Returned true =>
            (Returned (Completed (r_value r)),
             {| context := c2; activeDialog_state := st' |})
        | Returned false =>
            (Returned EndOfTurn,
             {| context := afterRetry st c2; activeDialog_state := st' |})
        | Thrown e => (Thrown e, {| context := c2; activeDialog_state := st' |})
        end
    | None =>
        let st' := setAttemptCount st (attemptCountOf st) in
        if succeeded r
        then (Returned (Completed (r_value r)),
              {| context := c1; activeDialog_state := st' |})
        else (Returned EndOfTurn,
              {| context := afterRetry st c1; activeDialog_state := st' |})
    end.
Proof.
  intros HR st.
  assert (Ha : activity c1 = activity (context dc)).
  { rewrite <- (recognizeToken_activity this host (context dc)). now rewrite HR. }
  unfold continueDialog, hasTimedOut. run. rewrite HR. simpl. rewrite Ha.
  destruct (ActivityTypes_eqb (type (activity (context dc))) Message
            && Z.ltb (expires (activeDialog_state dc)) (now host)) eqn:Hto;
    [reflexivity|].
  fold st. rewrite (counter_initialised st).
  rewrite lookup_insert_eq, insert_insert_eq. simpl default.
  unfold validatorContext, afterRetry, retryDue, isTruthyPrompt, setAttemptCount.
  destruct (validator this) as [v|]; simpl.
  - rewrite callValidator_run. simpl. rewrite Ha.
    match goal with
    | |- context [vr_verdict (v ?x)] => set (vc := x)
    end.
    destruct (vr_verdict (v vc)) as [[|]|e]; try reflexivity.
    destruct (retryPrompt (options st)) as [[s0|pa]|]; simpl; try reflexivity.
    + destruct (negb (responded c1 || respondsTo (vr_replies (v vc)))
                && ActivityTypes_eqb (type (activity (context dc))) Message
                && negb (s0 =? "")%string); reflexivity.
    + destruct (negb (responded c1 || respondsTo (vr_replies (v vc)))
                && ActivityTypes_eqb (type (activity (context dc))) Message
                && true); reflexivity.
  - rewrite Ha. destruct (succeeded r); try reflexivity.
    destruct (retryPrompt (options st)) as [[s0|pa]|]; simpl; try reflexivity.
    + destruct (negb (responded c1)
                && ActivityTypes_eqb (type (activity (context dc))) Message
                && negb (s0 =? "")%string); reflexivity.
    + destruct (negb (responded c1)
                && ActivityTypes_eqb (type (activity (context dc))) Message
                && true); reflexivity.
Qed.


Lemma recognizeToken_no_validator
    (this : OAuthPrompt) (host : Host) (c : TurnContext) (vc : PromptValidatorContext) :
  In (CallValidator vc) (log (snd (recognizeToken this host c))) ->
  In (CallValidator vc) (log c).
Proof.
  recognize_cases this host c
    ltac:(intros H; simpl in H; rewrite ?in_app_iff in H; simpl in H;
          intuition congruence).
Qed.

(** C7: on a continue turn whose recognition returned, that has not timed
    out and whose validation does not accept (the validator returns false,
    or there is no validator and nothing was recognized), the prompt returns
    the waiting result, with the counter kept in its state; before that it
    sends the retry prompt exactly when the three conditions hold at that
    point: nothing has been responded this turn, the inbound activity is a
    message, and the stored options have a retry prompt (one that is not the
    empty string).  [c2] is the context as validation left it. *)
Theorem C7_retry_prompt_needs_all_three
    (this : OAuthPrompt) (host : Host) (dc : DialogContext)
    (r : PromptRecognizerResult) (c1 : TurnContext) :
  recognizeToken this host (context dc) = (Returned r, c1) ->
  hasTimedOut host dc = false ->
  let st := activeDialog_state dc in
  let n :=
    match validator this with
    | Some _ => attemptCountOf st + 1
    | None => attemptCountOf st
    end in
  let c2 :=
    match validator this with
    | Some v => afterValidator v (validatorContext st c1 r n) c1
    | None => c1
    end in
  match validator this with
  | Some v => vr_verdict (v (validatorContext st c1 r n)) = Returned false
  | None => succeeded r = false
  end ->
  exists c3,
    continueDialog this host dc =
    (Returned EndOfTurn, {| context := c3; activeDialog_state := setAttemptCount st n |})
    /\ state (setAttemptCount st n) !! "attemptCount" = Some n
    /\ (forall p,
          responded c2 = false ->
          type (activity (context dc)) = Message ->
          retryPrompt (options st) = Some p ->
          isTruthyPrompt (Some p) = true ->
          c3 = performed c2 [SendActivity p] (negb (isTraceActivity p)))
    /\ (responded c2 = true
        \/ type (activity (context dc)) <> Message
        \/ isTruthyPrompt (retryPrompt (options st)) = false ->
        c3 = c2).
Proof.
  intros HR Hto st n c2 Hreject.
  assert (Ha : activity c2 = activity (context dc)).
  { rewrite <- (recognizeToken_activity this host (context dc)), HR.
    subst c2. now destruct (validator this). }
  exists (afterRetry st c2).
  rewrite (continueDialog_run this host dc r c1 HR), Hto. fold st.
  split; [|split; [|split]].
  - subst c2 n. cbv zeta. destruct (validator this) as [v|]; now rewrite Hreject.
  - unfold setAttemptCount. simpl. apply lookup_insert_eq.
  - intros p Hresp Hmsg Hp Htruthy.
    unfold afterRetry, retryDue. rewrite Hp, Hresp, Ha, Hmsg, Htruthy. simpl.
    reflexivity.
  - intros Hnot. unfold afterRetry, retryDue. rewrite Ha.
    destruct (retryPrompt (options st)) as [p|]; [|reflexivity].
    destruct Hnot as [Hresp | [Hmsg | Htruthy]].
    + now rewrite Hresp.
    + destruct (ActivityTypes_eqb (type (activity (context dc))) Message) eqn:E.
      * apply ActivityTypes_eqb_eq in E. contradiction.
      * now rewrite andb_false_r.
    + now rewrite Htruthy, andb_false_r.
Qed.

(** *** The six-digit pattern *)

Lemma takeDigits_sound (n : nat) (s m : string) :
  takeDigits n s = Some m ->
  String.length m = n /\ allDigits m = true /\ exists post, s = String.append m post.
Proof.
  revert s m. induction n as [|n IH]; intros s m H; simpl in H.
  - injection H as <-. repeat split. now exists s.
  - destruct s as [|ch s']; [discriminate|].
    destruct (isDigit ch) eqn:Hd; [|discriminate].
    destruct (takeDigits n s') as [m'|] eqn:Hm; [|discriminate].
    injection H as <-. destruct (IH s' m' Hm) as (Hl & Ha & post & ->).
    simpl. rewrite Hl, Hd, Ha. repeat split. now exists post.
Qed.

Lemma takeDigits_complete (d post : string) :
  allDigits d = true ->
  takeDigits (String.length d) (String.append d post) = Some d.
Proof.
  induction d as [|ch d IH]; simpl; intros H; [reflexivity|].
  apply andb_true_iff in H as [Hd Ha]. now rewrite Hd, (IH Ha).
Qed.

(** A match is six digits of the text. *)
Lemma execSixDigits_sound (s code : string) :
  execSixDigits s = Some code ->
  sixDigits code /\ exists pre post, s = String.append pre (String.append code post).
Proof.
  induction s as [|ch s IH]; intros H.
  - discriminate.
  - cbn [execSixDigits] in H.
    destruct (takeDigits 6 (String ch s)) as [m|] eqn:Hm.
    + injection H as <-.
      destruct (takeDigits_sound _ _ _ Hm) as (Hl & Ha & post & Hs).
      split; [now split|]. exists EmptyString, post. exact Hs.
    + destruct (IH H) as (Hsix & pre & post & ->).
      split; [exact Hsix|]. now exists (String ch pre), post.
Qed.

(** A text with six digits in a row has a match. *)
Lemma execSixDigits_complete (pre d post : string) :
  sixDigits d ->
  exists code, execSixDigits (String.append pre (String.append d post)) = Some code.
Proof.
  intros [Hl Ha]. induction pre as [|ch pre IH].
  - pose proof (takeDigits_complete d post Ha) as H. rewrite Hl in H.
    change (String.append EmptyString (String.append d post))
      with (String.append d post).
    destruct (String.append d post) as [|ch rest] eqn:E.
    + destruct d; discriminate.
    + exists d. cbn [execSixDigits]. now rewrite H.
  - destruct IH as [code IH].
    change (String.append (String ch pre) (String.append d post))
      with (String ch (String.append pre (String.append d post))).
    cbn [execSixDigits].
    destruct (takeDigits 6 (String ch (String.append pre (String.append d post))))
      as [m|]; [now exists m | now exists code].
Qed.

(** *** Timeout, attempt counting and the order of the steps *)

Lemma afterRetry_log (st : OAuthPromptState) (c : TurnContext) :
  exists sent, log (afterRetry st c) = (log c ++ map SendActivity sent)%list.
Proof.
  unfold afterRetry.
  destruct (retryPrompt (options st)) as [p|]; [destruct (retryDue st c)|].
  - now exists [p].
  - exists []. simpl. now rewrite app_nil_r.
  - exists []. simpl. now rewrite app_nil_r.
Qed.

Lemma no_validator_among_sent (sent : list Prompt) (vc : PromptValidatorContext) :
  ~ In (CallValidator vc) (map SendActivity sent).
Proof.
  intros H. apply in_map_iff in H as (p & Hp & _). discriminate.
Qed.

Lemma hasTimedOut_true (host : Host) (dc : DialogContext) :
  type (activity (context dc)) = Message ->
  expires (activeDialog_state dc) < now host ->
  hasTimedOut host dc = true.
Proof.
  intros Hm Hlt. unfold hasTimedOut. rewrite Hm. simpl. now apply Z.ltb_lt.
Qed.

Lemma hasTimedOut_other_type (host : Host) (dc : DialogContext) :
  type (activity (context dc)) <> Message -> hasTimedOut host dc = false.
Proof.
  intros Hm. unfold hasTimedOut.
  destruct (ActivityTypes_eqb (type (activity (context dc))) Message) eqn:E;
    [|reflexivity].
  apply ActivityTypes_eqb_eq in E. contradiction.
Qed.

(** C1 (amended): on a continue turn whose inbound activity is a plain
    message arriving strictly after [expires], the prompt completes with an
    absent token whatever the text, provided recognition returns (it throws
    only when the text has six digits in a row and the token lookup fails),
    and the validator is not called on that turn in any case; for an activity
    of any other type the turn does not depend on the clock at all. *)
Theorem C1_timeout_completes_with_absent_token
    (this : OAuthPrompt) (host : Host) (dc : DialogContext) :
  (type (activity (context dc)) = Message ->
   expires (activeDialog_state dc) < now host ->
   (forall r c1,
      recognizeToken this host (context dc) = (Returned r, c1) ->
      continueDialog this host dc = (Returned (Completed None), with_context c1 dc))
   /\ (forall e c1,
         recognizeToken this host (context dc) = (Thrown e, c1) ->
         continueDialog this host dc = (Thrown e, with_context c1 dc)
         /\ exists code,
              execSixDigits (toJsString (text (activity (context dc)))) = Some code
              /\ match adapter_getUserToken (adapter host) with
                 | Some lookup =>
                     lookup (activity (context dc)) (connection this) (Some code) = Thrown e
                 | None => True
                 end)
   /\ (forall vc,
         In (CallValidator vc) (log (context (snd (continueDialog this host dc)))) ->
         In (CallValidator vc) (log (context dc))))
  /\ (type (activity (context dc)) <> Message ->
      forall clock,
        continueDialog this (at_time host clock) dc = continueDialog this host dc).
Proof.
  split.
  - intros Hm Hlt. pose proof (hasTimedOut_true host dc Hm Hlt) as Hto.
    split; [|split].
    + intros r c1 HR. now rewrite (continueDialog_run this host dc r c1 HR), Hto.
    + intros e c1 HR.
      split; [now apply continueDialog_recognition_throws|].
      rewrite (recognizeToken_message this host (context dc) Hm) in HR.
      destruct (execSixDigits (toJsString (text (activity (context dc)))))
        as [code|]; [|discriminate].
      exists code. split; [reflexivity|].
      unfold bind in HR. rewrite getUserToken_run in HR.
      destruct (adapter_getUserToken (adapter host)) as [lookup|]; [|exact I].
      destruct (lookup (activity (context dc)) (connection this) (Some code));
        [discriminate | congruence].
    + intros vc.
      pose proof (recognizeToken_no_validator this host (context dc) vc) as Hnone.
      destruct (recognizeToken this host (context dc)) as [[r|e] c1] eqn:HR.
      * now rewrite (continueDialog_run this host dc r c1 HR), Hto.
      * now rewrite (continueDialog_recognition_throws this host dc e c1 HR).
  - intros Hm clock.
    destruct (recognizeToken this host (context dc)) as [[r|e] c1] eqn:HR.
    + rewrite (continueDialog_run this host dc r c1 HR).
      rewrite (continueDialog_run this (at_time host clock) dc r c1 HR).
      now rewrite !hasTimedOut_other_type.
    + rewrite (continueDialog_recognition_throws this host dc e c1 HR).
      now rewrite (continueDialog_recognition_throws this (at_time host clock) dc e c1 HR).
Qed.

(** C2 (amended): with a validator configured, the counter goes up by exactly
    1 on every turn that calls the validator, before the call and whatever
    its verdict: a failed validation, an accepted one and one that throws all
    leave the counter at the old value plus 1; that value is what the call
    receives, as [attemptCount] and in [state]; the validator is called once.
    A turn cut short by the timeout, or one whose recognition throws, leaves
    the prompt state as it was and does not call the validator. *)
Theorem C2_attempt_count_per_validator_call
    (this : OAuthPrompt) (host : Host) (dc : DialogContext) (v : PromptValidator) :
  validator this = Some v ->
  let st := activeDialog_state dc in
  let dc' := snd (continueDialog this host dc) in
  (hasTimedOut host dc = true ->
   activeDialog_state dc' = st
   /\ forall vc, In (CallValidator vc) (log (context dc')) ->
                 In (CallValidator vc) (log (context dc)))
  /\ (forall e c', recognizeToken this host (context dc) = (Thrown e, c') ->
      activeDialog_state dc' = st)
  /\ (forall r c1,
        recognizeToken this host (context dc) = (Returned r, c1) ->
        hasTimedOut host dc = false ->
        let n := attemptCountOf st + 1 in
        let vc := validatorContext st c1 r n in
        state (activeDialog_state dc') !! "attemptCount" = Some n
        /\ pvc_attemptCount vc = n
        /\ pvc_state vc = state (activeDialog_state dc')
        /\ (exists sent,
              log (context dc') =
              (log c1 ++ CallValidator vc :: map SendActivity sent)%list)
        /\ fst (continueDialog this host dc) =
           match vr_verdict (v vc) with
           | Returned true => Returned (Completed (r_value r))
           | Returned false => Returned EndOfTurn
           | Thrown e => Thrown e
           end).
Proof.
  intros Hv st dc'. subst dc'. split; [|split].
  - intros Hto.
    destruct (recognizeToken this host (context dc)) as [[r|e] c1] eqn:HR.
    + rewrite (continueDialog_run this host dc r c1 HR), Hto. simpl.
      split; [reflexivity|]. intros vc H.
      apply (recognizeToken_no_validator this host). now rewrite HR.
    + rewrite (continueDialog_recognition_throws this host dc e c1 HR). simpl.
      split; [reflexivity|]. intros vc H.
      apply (recognizeToken_no_validator this host). now rewrite HR.
  - intros e c' HR.
    now rewrite (continueDialog_recognition_throws this host dc e c' HR).
  - intros r c1 HR Hto n vc.
    rewrite (continueDialog_run this host dc r c1 HR), Hto, Hv. cbv zeta.
    fold st. fold n. fold vc.
    destruct (afterRetry_log st (afterValidator v vc c1)) as [retried Hretried].
    destruct (vr_verdict (v vc)) as [[|]|e]; simpl;
      (split; [apply lookup_insert_eq|]);
      (split; [reflexivity|]); (split; [reflexivity|]);
      (split; [|reflexivity]).
    + now exists (vr_replies (v vc)).
    + exists (vr_replies (v vc) ++ retried)%list.
      rewrite Hretried. simpl. now rewrite map_app, <- app_assoc.
    + now exists (vr_replies (v vc)).
Qed.

(** C10: on every continue turn the effects of [recognizeToken] come first:
    what the turn has done at its end extends what recognition did.  In
    particular a plain message that arrives after the deadline and has six
    digits in a row still has the provider's [getUserToken] called with the
    first six digits, and the turn then completes with an absent token
    whatever the lookup returned. *)
Theorem C10_recognition_runs_before_timeout_check
    (this : OAuthPrompt) (host : Host) (dc : DialogContext) :
  (exists later,
     log (context (snd (continueDialog this host dc))) =
     (log (snd (recognizeToken this host (context dc))) ++ later)%list)
  /\ (forall pre d post lookup,
        type (activity (context dc)) = Message ->
        text (activity (context dc)) =
          Some (String.append pre (String.append d post)) ->
        sixDigits d ->
        expires (activeDialog_state dc) < now host ->
        adapter_getUserToken (adapter host) = Some lookup ->
        exists code,
          execSixDigits (String.append pre (String.append d post)) = Some code
          /\ sixDigits code
          /\ let c1 :=
               performed (context dc) [GetUserToken (connection this) (Some code)]
                 (responded (context dc)) in
             continueDialog this host dc =
             match lookup (activity (context dc)) (connection this) (Some code) with
             | Returned _ => (Returned (Completed None), with_context c1 dc)
             | Thrown e => (Thrown e, with_context c1 dc)
             end).
Proof.
  split.
  - destruct (recognizeToken this host (context dc)) as [[r|e] c1] eqn:HR.
    + rewrite (continueDialog_run this host dc r c1 HR). cbv zeta. simpl.
      destruct (hasTimedOut host dc); simpl.
      { exists []. now rewrite app_nil_r. }
      destruct (validator this) as [v|].
      * set (vc := validatorContext _ _ _ _).
        destruct (afterRetry_log (activeDialog_state dc) (afterValidator v vc c1))
          as [retried Hretried].
        destruct (vr_verdict (v vc)) as [[|]|e]; simpl; eauto.
        rewrite Hretried. simpl. rewrite <- app_assoc. eauto.
      * destruct (afterRetry_log (activeDialog_state dc) c1) as [retried Hretried].
        destruct (succeeded r); simpl; [|eauto].
        exists []. now rewrite app_nil_r.
    + rewrite (continueDialog_recognition_throws this host dc e c1 HR). simpl.
      exists []. now rewrite app_nil_r.
  - intros pre d post lookup Hm Htext Hd Hlt Hlookup.
    destruct (execSixDigits_complete pre d post Hd) as [code Hcode].
    exists code. split; [exact Hcode|].
    split; [exact (proj1 (execSixDigits_sound _ _ Hcode))|].
    cbv zeta.
    assert (HR := recognizeToken_message this host (context dc) Hm).
    rewrite Htext in HR. simpl toJsString in HR. rewrite Hcode in HR.
    unfold bind in HR. rewrite getUserToken_run, Hlookup in HR.
    destruct (lookup (activity (context dc)) (connection this) (Some code))
      as [token|e].
    + rewrite (continueDialog_run this host dc _ _ HR).
      now rewrite (hasTimedOut_true host dc Hm Hlt).
    + now rewrite (continueDialog_recognition_throws this host dc e _ HR).
Qed.

(** *** [beginDialog] *)

Lemma hasCard_added (ct : ContentType) (l : list Attachment) (card : CardContent) :
  match ct with
  | otherContentType _ => False
  | _ => True
  end ->
  hasCard ct (l ++ [ {| contentType := ct; content := card |} ]) = true.
Proof.
  intros H. unfold hasCard. rewrite existsb_app. simpl.
  destruct ct; try contradiction; now rewrite orb_true_r.
Qed.

Ltac case_timeout :=
  match goal with
  | |- context [if negb (isTruthyNumber ?x) && ?y then _ else _] =>
      destruct (negb (isTruthyNumber x) && y)
  end;
  simpl.

(** [sendOAuthCardAsync] sends one message, which carries a login card, after
    at most one call for the sign-in resource; or that call throws and
    nothing is sent. *)
Lemma sendOAuthCardAsync_run
    (this : OAuthPrompt) (host : Host) (prompt : option Prompt) (c : TurnContext)
    (lookup : Activity -> string -> option string -> Outcome (option TokenResponse)) :
  adapter_getUserToken (adapter host) = Some lookup ->
  let asked := GetSignInResource (connection this) (from_id (activity c)) in
  (exists e,
     sendOAuthCardAsync this host prompt c =
     (Thrown e, performed c [asked] (responded c)))
  \/ (exists c' calls card,
        sendOAuthCardAsync this host prompt c = (Returned tt, c')
        /\ log c' = (log c ++ calls ++ [SendActivity card])%list
        /\ (calls = [] \/ calls = [asked])
        /\ carriesLoginCard card).
Proof.
  intros Hlookup asked. subst asked.
  unfold sendOAuthCardAsync, getSignInResource. rewrite Hlookup. run.
  set (msg := match prompt with
              | Some (PText s) => MessageFactory_text (Some s)
              | Some (PActivity pa) => pa
              | None => MessageFactory_text None
              end).
  set (attachments := match p_attachments msg with
                      | Some l => l
                      | None => []
                      end).
  destruct (isOAuthCardSupported host (activity c)).
  - destruct (hasCard oauthCard attachments) eqn:Hcard; simpl.
    + right. case_timeout; eexists _, [], _;
        (split; [reflexivity|]); (split; [reflexivity|]); (split; [now left|]);
        eexists _, _; (split; [reflexivity|]); (split; [reflexivity|]);
        now rewrite Hcard.
    + destruct (adapter_getSignInResource (adapter host) (activity c)
                  (connection this) (from_id (activity c))) as [resource|e]; simpl.
      * right. case_timeout; eexists _, [_], _;
          (split; [reflexivity|]);
          (split; [simpl; now rewrite <- app_assoc|]); (split; [now right|]);
          eexists _, _; (split; [reflexivity|]); (split; [reflexivity|]);
          now rewrite hasCard_added.
      * left. now exists e.
  - destruct (hasCard signinCard attachments) eqn:Hcard; simpl.
    + right. case_timeout; eexists _, [], _;
        (split; [reflexivity|]); (split; [reflexivity|]); (split; [now left|]);
        eexists _, _; (split; [reflexivity|]); (split; [reflexivity|]);
        now rewrite Hcard, orb_true_r.
    + destruct (adapter_getSignInResource (adapter host) (activity c)
                  (connection this) (from_id (activity c))) as [resource|e]; simpl.
      * right. case_timeout; eexists _, [_], _;
          (split; [reflexivity|]);
          (split; [simpl; now rewrite <- app_assoc|]); (split; [now right|]);
          eexists _, _; (split; [reflexivity|]); (split; [reflexivity|]);
          now rewrite hasCard_added, orb_true_r.
      * left. now exists e.
Qed.

(** C8: when the silent [getUserToken] lookup of [beginDialog] returns a
    token, the prompt completes in that turn with that token, and the turn
    has done nothing but the lookup: no card is sent.  When the lookup
    returns no token, the login card is sent (one message that carries a
    login card, after at most one call for the sign-in resource) and the
    waiting result is returned; the only other way out is that the call for
    the sign-in resource throws. *)
Theorem C8_silent_token_completes_without_card
    (this : OAuthPrompt) (host : Host) (opts : option PromptOptions) (dc : DialogContext)
    (lookup : Activity -> string -> option string -> Outcome (option TokenResponse)) :
  adapter_getUserToken (adapter host) = Some lookup ->
  let c := context dc in
  let c1 := performed c [GetUserToken (connection this) None] (responded c) in
  let asked := GetSignInResource (connection this) (from_id (activity c)) in
  let outcome := beginDialog this host opts dc in
  match lookup (activity c) (connection this) None with
  | Returned (Some token) =>
      fst outcome = Returned (Completed (Some token)) /\ context (snd outcome) = c1
  | Returned None =>
      (fst outcome = Returned EndOfTurn
       /\ exists calls card,
            log (context (snd outcome)) = (log c1 ++ calls ++ [SendActivity card])%list
            /\ (calls = [] \/ calls = [asked])
            /\ carriesLoginCard card)
      \/ (exists e,
            fst outcome = Thrown e
            /\ context (snd outcome) = performed c1 [asked] (responded c))
  | Thrown e => fst outcome = Thrown e /\ context (snd outcome) = c1
  end.
Proof.
  intros Hlookup c c1 asked outcome. subst outcome asked c1 c.
  unfold beginDialog. run. rewrite getUserToken_run, Hlookup. simpl.
  destruct (lookup (activity (context dc)) (connection this) None) as [[token|]|e];
    simpl; try (split; reflexivity).
  set (c1 := performed (context dc) [GetUserToken (connection this) None]
               (responded (context dc))).
  match goal with
  | |- context [sendOAuthCardAsync this host ?p c1] =>
      destruct (sendOAuthCardAsync_run this host p c1 lookup Hlookup)
        as [(e & ->) | (c' & calls & card & -> & Hlog & Hcalls & Hcard)]
  end; simpl.
  - right. exists e. split; reflexivity.
  - left. split; [reflexivity|]. exists calls, card. repeat split; assumption.
Qed.

(** *** The statements on the scenarios *)

Import Scenarios.

(** A verification invoke with the code the provider knows: 200, and the
    token is recognized. *)
Lemma C6_witness :
  recognizeToken contoso (hostWith testAdapter 500)
    (freshContext (invokeActivity "signin/verifyState" {[ "state" := "482913" ]}))
  = (Returned (recognizedToken contosoToken),
     performed
       (freshContext (invokeActivity "signin/verifyState" {[ "state" := "482913" ]}))
       [ GetUserToken "Contoso" (Some "482913");
         SendActivity
           (PActivity
              {| p_type := Some InvokeResponse;
                 p_text := None;
                 p_inputHint := None;
                 p_attachments := None;
                 p_value := Some {| status := 200; body := None |} |}) ]
       true).
Proof.
  exact (C6_verification_invoke_replies contoso (hostWith testAdapter 500)
           (freshContext (invokeActivity "signin/verifyState" {[ "state" := "482913" ]}))
           {[ "state" := "482913" ]} eq_refl eq_refl).
Defined.

(** The scenario of the specification: a token-exchange invoke for the
    connection "Wrong" is answered 400, connection name mismatch. *)
Lemma C3_witness :
  recognizeToken contoso (hostWith testAdapter 500)
    (freshContext (invokeActivity "signin/tokenExchange" (exchangeRequest "Wrong" "x")))
  = (Returned notRecognized,
     performed
       (freshContext (invokeActivity "signin/tokenExchange" (exchangeRequest "Wrong" "x")))
       [ SendActivity
           (PActivity
              {| p_type := Some InvokeResponse;
                 p_text := None;
                 p_inputHint := None;
                 p_attachments := None;
                 p_value :=
                   Some {| status := 400;
                           body :=
                             Some {| ter_id := None;
                                     ter_connectionName := "Contoso";
                                     ter_failureDetail :=
                                       Some "The bot received an InvokeActivity with a TokenExchangeInvokeRequest containing a ConnectionName that does not match the ConnectionNameexpected by the bots active OAuthPrompt. Ensure these names match when sending the InvokeActivityInvalid ConnectionName in the TokenExchangeInvokeRequest" |} |} |}) ]
       true).
Proof.
  exact (C3_token_exchange_invoke_checks contoso (hostWith testAdapter 500)
           (freshContext (invokeActivity "signin/tokenExchange" (exchangeRequest "Wrong" "x")))
           eq_refl eq_refl).
Defined.

(** A message with the valid code, 500 ms after the deadline: the lookup is
    made and the prompt completes with an absent token; and a verification
    invoke is handled the same whatever the clock says. *)
Lemma C1_witness :
  continueDialog contoso (hostWith testAdapter 1500)
    (turnOf (messageActivity "Your code is 482913"))
  = (Returned (Completed None),
     with_context
       (performed (freshContext (messageActivity "Your code is 482913"))
          [GetUserToken "Contoso" (Some "482913")] false)
       (turnOf (messageActivity "Your code is 482913")))
  /\ continueDialog contoso (at_time (hostWith testAdapter 500) 999999)
       (turnOf (invokeActivity "signin/verifyState" {[ "state" := "482913" ]}))
     = continueDialog contoso (hostWith testAdapter 500)
         (turnOf (invokeActivity "signin/verifyState" {[ "state" := "482913" ]})).
Proof.
  split.
  - apply (proj1 (proj1 (C1_timeout_completes_with_absent_token contoso
                           (hostWith testAdapter 1500)
                           (turnOf (messageActivity "Your code is 482913")))
                    eq_refl eq_refl)
             (recognizedToken contosoToken)).
    reflexivity.
  - apply (proj2 (C1_timeout_completes_with_absent_token contoso
                    (hostWith testAdapter 500)
                    (turnOf (invokeActivity "signin/verifyState" {[ "state" := "482913" ]})))).
    discriminate.
Defined.

(** The sentence of the specification fails when recognition throws: a message with six
    digits, after the deadline, with the provider unreachable; the error of
    the lookup leaves [continueDialog] and the prompt does not complete. *)
Lemma C1_counterexample :
  type (activity (context (turnOf (messageActivity "123456")))) = Message
  /\ expires (activeDialog_state (turnOf (messageActivity "123456"))) < 1500
  /\ continueDialog contoso (hostWith failingAdapter 1500)
       (turnOf (messageActivity "123456"))
     = (Thrown (Err "provider unreachable"),
        with_context
          (performed (freshContext (messageActivity "123456"))
             [GetUserToken "Contoso" (Some "123456")] false)
          (turnOf (messageActivity "123456"))).
Proof. repeat split. Qed.

(** A validator that rejects: the counter goes from absent to 1, the call
    receives 1, and the prompt waits. *)
Lemma C2_witness :
  state (activeDialog_state
           (snd (continueDialog (contosoWith rejectAndReply) (hostWith testAdapter 500)
                   (turnOf (messageActivity "hello")))))
    !! "attemptCount" = Some 1
  /\ fst (continueDialog (contosoWith rejectAndReply) (hostWith testAdapter 500)
            (turnOf (messageActivity "hello")))
     = Returned EndOfTurn.
Proof.
  destruct (proj2 (proj2 (C2_attempt_count_per_validator_call
                            (contosoWith rejectAndReply) (hostWith testAdapter 500)
                            (turnOf (messageActivity "hello")) rejectAndReply eq_refl))
              notRecognized (freshContext (messageActivity "hello")) eq_refl eq_refl)
    as (Hcount & _ & _ & _ & Hresult).
  split; [exact Hcount | exact Hresult].
Defined.

(** The sentence of the specification fails on an accepted validation: the first answer
    carries the valid code, the validator accepts it, nothing has failed, and
    the counter has gone from absent to 1 all the same. *)
Lemma C2_counterexample :
  state (activeDialog_state (turnOf (messageActivity "Your code is 482913")))
    !! "attemptCount" = None
  /\ fst (continueDialog (contosoWith acceptRecognized) (hostWith testAdapter 500)
            (turnOf (messageActivity "Your code is 482913")))
     = Returned (Completed (Some contosoToken))
  /\ state (activeDialog_state
              (snd (continueDialog (contosoWith acceptRecognized) (hostWith testAdapter 500)
                      (turnOf (messageActivity "Your code is 482913")))))
       !! "attemptCount" = Some 1.
Proof. repeat split. Qed.

(** A message without code, in time, no validator, nothing sent yet: the
    retry prompt goes out and the prompt waits. *)
Lemma C7_witness :
  exists c3,
    continueDialog contoso (hostWith testAdapter 500) (turnOf (messageActivity "hello"))
    = (Returned EndOfTurn,
       {| context := c3; activeDialog_state := setAttemptCount waitingState 0 |})
    /\ c3 = performed (freshContext (messageActivity "hello"))
              [SendActivity (PText "Please use the sign-in card.")] true.
Proof.
  destruct (C7_retry_prompt_needs_all_three contoso (hostWith testAdapter 500)
              (turnOf (messageActivity "hello")) notRecognized
              (freshContext (messageActivity "hello")) eq_refl eq_refl eq_refl)
    as (c3 & Hrun & _ & Hsent & _).
  exists c3. split; [exact Hrun|].
  exact (Hsent (PText "Please use the sign-in card.") eq_refl eq_refl eq_refl eq_refl).
Defined.

(** The provider already holds the token: the prompt completes at once, and
    the lookup is all the turn has done. *)
Lemma C8_witness :
  fst (beginDialog contoso (hostWith signedInAdapter 0) None
         (turnOf (messageActivity "hi")))
  = Returned (Completed (Some contosoToken))
  /\ context (snd (beginDialog contoso (hostWith signedInAdapter 0) None
                     (turnOf (messageActivity "hi"))))
     = performed (freshContext (messageActivity "hi")) [GetUserToken "Contoso" None] false.
Proof.
  exact (C8_silent_token_completes_without_card contoso (hostWith signedInAdapter 0) None
           (turnOf (messageActivity "hi")) (fun _ _ _ => Returned (Some contosoToken))
           eq_refl).
Defined.

(** The late message with the valid code: the provider is asked for the
    token of 482913, and the turn completes with an absent token. *)
Lemma C10_witness :
  continueDialog contoso (hostWith testAdapter 1500)
    (turnOf (messageActivity "Your code is 482913"))
  = (Returned (Completed None),
     with_context
       (performed (freshContext (messageActivity "Your code is 482913"))
          [GetUserToken "Contoso" (Some "482913")] false)
       (turnOf (messageActivity "Your code is 482913"))).
Proof.
  destruct (proj2 (C10_recognition_runs_before_timeout_check contoso
                     (hostWith testAdapter 1500)
                     (turnOf (messageActivity "Your code is 482913")))
              "Your code is " "482913" ""
              (fun _ _ code =>
                 if isString_eq code "482913" then Returned (Some contosoToken)
                 else Returned None)
              eq_refl eq_refl (conj eq_refl eq_refl) eq_refl eq_refl)
    as (code & Hcode & _ & Hrun).
  injection Hcode as <-. exact Hrun.
Defined.

(** * Further properties of the OAuthPrompt *)

(** *** The sign-in card *)

Lemma isTraceActivity_attachments (msg : PartialActivity) (l : list Attachment) :
  isTraceActivity (PActivity (with_attachments msg l)) = isTraceActivity (PActivity msg).
Proof. reflexivity. Qed.

(** [sendOAuthCardAsync], branch by branch. *)
Lemma sendOAuthCardAsync_cases
    (this : OAuthPrompt) (host : Host) (prompt : option Prompt) (c : TurnContext)
    (lookup : Activity -> string -> option string -> Outcome (option TokenResponse)) :
  adapter_getUserToken (adapter host) = Some lookup ->
  let a := activity c in
  let msg := promptMessage prompt in
  let atts := attachmentsOf msg in
  let wanted := if isOAuthCardSupported host a then oauthCard else signinCard in
  let asked := GetSignInResource (connection this) (from_id a) in
  let sent calls atts' :=
    (Returned tt,
     {| activity := a;
        responded := responded c || negb (isTraceActivity (PActivity msg));
        loginTimeout := nextLoginTimeout this c;
        log := (log c ++ calls ++ [SendActivity (PActivity (with_attachments msg atts'))])%list |}) in
  sendOAuthCardAsync this host prompt c =
  if hasCard wanted atts then sent [] atts
  else
    match adapter_getSignInResource (adapter host) a (connection this) (from_id a) with
    | Returned r => sent [asked] (atts ++ [loginCard this host a r])%list
    | Thrown e => (Thrown e, performed c [asked] (responded c))
    end.
Proof.
  intros Hlookup a msg atts wanted asked sent.
  subst a wanted asked sent atts msg.
  unfold sendOAuthCardAsync, getSignInResource, loginCard, nextLoginTimeout,
    usesSignInLink.
  rewrite Hlookup. run.
  fold (promptMessage prompt). fold (attachmentsOf (promptMessage prompt)).
  destruct (isOAuthCardSupported host (activity c)).
  - destruct (hasCard oauthCard (attachmentsOf (promptMessage prompt))); simpl.
    + case_timeout; reflexivity.
    + destruct (adapter_getSignInResource (adapter host) (activity c)
                  (connection this) (from_id (activity c))) as [r|e]; simpl;
        [|reflexivity].
      case_timeout; rewrite <- app_assoc; reflexivity.
  - destruct (hasCard signinCard (attachmentsOf (promptMessage prompt))); simpl.
    + case_timeout; reflexivity.
    + destruct (adapter_getSignInResource (adapter host) (activity c)
                  (connection this) (from_id (activity c))) as [r|e]; simpl;
        [|reflexivity].
      case_timeout; rewrite <- app_assoc; reflexivity.
Qed.

(** X1: the message [sendOAuthCardAsync] sends is the caller's prompt (a
    string becomes a text message) with the caller's attachments kept, in
    order, at the front; one login card of the kind the channel supports is
    appended after a request for the sign-in resource, unless the caller's
    attachments already have a card of that kind: then nothing is appended
    and the sign-in resource is not requested.  Nothing else is sent. *)
Theorem X1_card_appended_once_attachments_kept
    (this : OAuthPrompt) (host : Host) (prompt : option Prompt) (c c' : TurnContext)
    (lookup : Activity -> string -> option string -> Outcome (option TokenResponse)) :
  adapter_getUserToken (adapter host) = Some lookup ->
  sendOAuthCardAsync this host prompt c = (Returned tt, c') ->
  let own := attachmentsOf (promptMessage prompt) in
  let wanted := if isOAuthCardSupported host (activity c) then oauthCard else signinCard in
  exists calls msg added,
    log c' = (log c ++ calls ++ [SendActivity (PActivity msg)])%list
    /\ sentActivities calls = []
    /\ p_text msg = p_text (promptMessage prompt)
    /\ p_inputHint msg = p_inputHint (promptMessage prompt)
    /\ p_attachments msg = Some (own ++ added)%list
    /\ (hasCard wanted own = true -> added = [] /\ calls = [])
    /\ (hasCard wanted own = false ->
        exists card,
          added = [card] /\ contentType card = wanted
          /\ calls = [GetSignInResource (connection this) (from_id (activity c))]).
Proof.
  intros Hlookup Hrun own wanted.
  rewrite (sendOAuthCardAsync_cases this host prompt c lookup Hlookup) in Hrun.
  cbv zeta in Hrun. fold own wanted in Hrun.
  destruct (hasCard wanted own) eqn:Hcard.
  - injection Hrun as <-. exists [], (with_attachments (promptMessage prompt) own), [].
    simpl. rewrite app_nil_r. repeat split; try reflexivity; discriminate.
  - destruct (adapter_getSignInResource (adapter host) (activity c) (connection this)
                (from_id (activity c))) as [r|e]; [|discriminate].
    injection Hrun as <-.
    eexists [_], (with_attachments (promptMessage prompt) _), [_].
    simpl. repeat split; try reflexivity; try discriminate.
    intros _. eexists. split; [reflexivity|]. split; [|reflexivity].
    subst wanted. unfold loginCard.
    destruct (isOAuthCardSupported host (activity c)); reflexivity.
Qed.

(** X2: the card that is appended is a sign-in card when the adapter is one
    of the seven community adapters named in the source, whatever the
    channel, or when the channel is Teams, Cortana, Skype or Skype for
    Business; in every other case it is an OAuth card. *)
Theorem X2_card_kind_by_adapter_and_channel
    (host : Host) (a : Activity) :
  isOAuthCardSupported host a = false
  <-> (exists n, adapter_name (adapter host) = Some n /\ In n communityAdapterNames)
      \/ channelId a = Msteams \/ channelId a = Cortana
      \/ channelId a = Skype \/ channelId a = Skypeforbusiness.
Proof.
  unfold isOAuthCardSupported.
  assert (Hnames : forall n, existsb (String.eqb n) communityAdapterNames = true
                             <-> In n communityAdapterNames).
  { intros n. rewrite existsb_exists. split.
    - intros (x & Hx & Heq). apply String.eqb_eq in Heq. now subst.
    - intros Hn. exists n. split; [exact Hn | apply String.eqb_refl]. }
  assert (Hchannel : channelSupportsOAuthCard (channelId a) = false
                     <-> channelId a = Msteams \/ channelId a = Cortana
                         \/ channelId a = Skype \/ channelId a = Skypeforbusiness).
  { destruct (channelId a); simpl; split; intros H; auto; try discriminate;
      destruct H as [H|[H|[H|H]]]; discriminate. }
  destruct (adapter_name (adapter host)) as [n|].
  - destruct (existsb (String.eqb n) communityAdapterNames) eqn:E.
    + split; [|reflexivity]. intros _. left. exists n. split; [reflexivity|].
      now apply Hnames.
    + rewrite Hchannel. split; [now right|].
      intros [(m & [= <-] & Hin) | H]; [|exact H].
      apply Hnames in Hin. congruence.
  - rewrite Hchannel. split; [now right|].
    intros [(m & Hm & _) | H]; [discriminate | exact H].
Qed.

(** X3: an OAuth card that [sendOAuthCardAsync] appends carries the
    provider's sign-in link only when the bot is a skill, the activity came
    over a streaming connection or the settings have app credentials, and its
    button opens a URL only in that case on the emulator; otherwise the card
    has no link and a sign-in button.  The token-exchange resource of the
    provider is always passed on. *)
Theorem X3_oauth_card_link_and_button
    (this : OAuthPrompt) (host : Host) (prompt : option Prompt) (c c' : TurnContext)
    (lookup : Activity -> string -> option string -> Outcome (option TokenResponse))
    (r : SignInResource) :
  adapter_getUserToken (adapter host) = Some lookup ->
  isOAuthCardSupported host (activity c) = true ->
  hasCard oauthCard (attachmentsOf (promptMessage prompt)) = false ->
  adapter_getSignInResource (adapter host) (activity c) (connection this)
    (from_id (activity c)) = Returned r ->
  exists msg link button,
    sentActivities (drop (length (log c))
                      (log (snd (sendOAuthCardAsync this host prompt c))))
      = [PActivity msg]
    /\ p_attachments msg =
       Some (attachmentsOf (promptMessage prompt) ++
             [ {| contentType := oauthCard;
                  content :=
                    OAuthCard (connection this) (s_title (settings this))
                      (s_text (settings this)) link (tokenExchangeResource r) button |} ])%list
    /\ (botIsSkill host = false ->
        isFromStreamingConnection (activity c) = false ->
        oAuthAppCredentials (settings this) = None ->
        link = None /\ button = Signin)
    /\ (botIsSkill host = true \/ isFromStreamingConnection (activity c) = true
        \/ oAuthAppCredentials (settings this) <> None ->
        link = signInLink r
        /\ (button = OpenUrl <-> channelId (activity c) = Emulator)).
Proof.
  intros Hlookup Hsupported Hcard Hresource.
  rewrite (sendOAuthCardAsync_cases this host prompt c lookup Hlookup).
  cbv zeta. rewrite Hsupported, Hcard, Hresource. simpl.
  rewrite drop_app_length. simpl.
  unfold loginCard. rewrite Hsupported.
  eexists _, _, _. split; [reflexivity|]. split; [reflexivity|].
  unfold usesSignInLink. split.
  - intros -> -> ->. simpl. now split.
  - intros Hexposed.
    assert (Hlink : botIsSkill host || isFromStreamingConnection (activity c)
                    || match oAuthAppCredentials (settings this) with
                       | Some _ => true
                       | None => false
                       end = true).
    { destruct Hexposed as [-> | [-> | Hcred]]; [reflexivity | apply orb_true_iff; left; apply orb_true_r |].
      destruct (oAuthAppCredentials (settings this)); [apply orb_true_r | contradiction]. }
    rewrite Hlink. split; [reflexivity|].
    destruct (channelId (activity c)); split; intros H; try reflexivity; discriminate.
Qed.

(** X4: [sendOAuthCardAsync] never overwrites a login timeout that is already
    in turn state; it stores the timeout of the settings only when turn state
    has none (or 0) and the settings have one other than 0. *)
Theorem X4_login_timeout_set_once
    (this : OAuthPrompt) (host : Host) (prompt : option Prompt) (c c' : TurnContext) :
  sendOAuthCardAsync this host prompt c = (Returned tt, c') ->
  (isTruthyNumber (loginTimeout c) = true -> loginTimeout c' = loginTimeout c)
  /\ (isTruthyNumber (loginTimeout c) = false ->
      loginTimeout c' =
      if isTruthyNumber (timeout (settings this)) then timeout (settings this)
      else loginTimeout c).
Proof.
  intros Hrun.
  destruct (adapter_getUserToken (adapter host)) as [lookup|] eqn:Hlookup.
  - rewrite (sendOAuthCardAsync_cases this host prompt c lookup Hlookup) in Hrun.
    cbv zeta in Hrun.
    assert (Hc' : loginTimeout c' = nextLoginTimeout this c).
    { destruct (hasCard _ _); [now injection Hrun as <-|].
      destruct (adapter_getSignInResource _ _ _ _); [now injection Hrun as <- | discriminate]. }
    rewrite Hc'. unfold nextLoginTimeout. split; intros ->; reflexivity.
  - unfold sendOAuthCardAsync in Hrun. rewrite Hlookup in Hrun. discriminate.
Qed.

(** *** Recognition and the continue turn *)

(** X5: a verification invoke whose activity has no value makes
    [recognizeToken] throw before it reaches its [try] block: no lookup is
    made, the invoke gets no reply, and the error leaves [continueDialog]
    with the prompt state as it was. *)
Theorem X5_verification_invoke_without_value_throws
    (this : OAuthPrompt) (host : Host) (dc : DialogContext) :
  isTeamsVerificationInvoke host (activity (context dc)) = true ->
  value (activity (context dc)) = None ->
  exists e,
    recognizeToken this host (context dc) = (Thrown e, context dc)
    /\ continueDialog this host dc = (Thrown e, dc).
Proof.
  intros Hinvoke Hvalue.
  exists (Err "TypeError: Cannot read property 'state' of undefined").
  assert (HR : recognizeToken this host (context dc) =
               (Thrown (Err "TypeError: Cannot read property 'state' of undefined"),
                context dc)).
  { rewrite (recognizeToken_verification this host _ Hinvoke).
    unfold recognizeVerificationInvoke. rewrite Hvalue. reflexivity. }
  split; [exact HR|].
  rewrite (continueDialog_recognition_throws this host dc _ _ HR).
  now destruct dc.
Qed.

Lemma takeDigits_six_of_run (d post : string) :
  sixDigits d -> takeDigits 6 (String.append d post) = Some d.
Proof.
  intros [Hl Ha]. rewrite <- Hl. now apply takeDigits_complete.
Qed.

(** X6: the six-digit pattern finds a code exactly when the text has six
    digits in a row, and the code is then the leftmost such run: six digits
    that occur in the text, with no run of six digits starting earlier. *)
Theorem X6_magic_code_is_leftmost_six_digit_run (s : string) :
  (execSixDigits s = None <-> ~ hasSixDigits s)
  /\ (forall code,
        execSixDigits s = Some code ->
        sixDigits code
        /\ exists pre post,
             s = String.append pre (String.append code post)
             /\ forall pre' d post',
                  s = String.append pre' (String.append d post') ->
                  sixDigits d ->
                  (String.length pre <= String.length pre')%nat).
Proof.
  split.
  - split.
    + intros Hnone (pre & d & post & -> & Hd).
      destruct (execSixDigits_complete pre d post Hd) as [code Hcode]. congruence.
    + intros Hno. destruct (execSixDigits s) as [code|] eqn:Hcode; [|reflexivity].
      exfalso. apply Hno.
      destruct (execSixDigits_sound s code Hcode) as (Hsix & pre & post & ->).
      now exists pre, code, post.
  - induction s as [|ch s IH]; intros code Hcode; [discriminate|].
    cbn [execSixDigits] in Hcode.
    destruct (takeDigits 6 (String ch s)) as [m|] eqn:Hm.
    + injection Hcode as <-.
      destruct (takeDigits_sound _ _ _ Hm) as (Hl & Ha & post & Hs).
      split; [now split|].
      exists EmptyString, post. split; [exact Hs|]. intros. simpl. lia.
    + destruct (IH code Hcode) as (Hsix & pre & post & Hs & Hleft).
      split; [exact Hsix|].
      exists (String ch pre), post. split; [now rewrite Hs|].
      intros pre' d post' Hs' Hd. destruct pre' as [|ch' pre'].
      * change (String.append EmptyString (String.append d post'))
          with (String.append d post') in Hs'.
        rewrite Hs', (takeDigits_six_of_run d post' Hd) in Hm.
        discriminate.
      * change (String.append (String ch' pre') (String.append d post'))
          with (String ch' (String.append pre' (String.append d post'))) in Hs'.
        injection Hs' as _ Hs'.
        specialize (Hleft pre' d post' Hs' Hd). simpl. lia.
Qed.

(** X7: a plain message that arrives in time (the clock not past [expires]),
    with no validator, is decided by the text alone: without six digits in a
    row no lookup is made and the prompt waits; with them the provider is
    asked once for the token of the first six digits, a token completes the
    prompt with it, no token leaves the prompt waiting, and an error of the
    lookup is thrown on. *)
Theorem X7_in_time_message_decided_by_lookup
    (this : OAuthPrompt) (host : Host) (dc : DialogContext)
    (lookup : Activity -> string -> option string -> Outcome (option TokenResponse)) :
  validator this = None ->
  type (activity (context dc)) = Message ->
  now host <= expires (activeDialog_state dc) ->
  adapter_getUserToken (adapter host) = Some lookup ->
  let c := context dc in
  let st := activeDialog_state dc in
  let st' := setAttemptCount st (attemptCountOf st) in
  match execSixDigits (toJsString (text (activity c))) with
  | None =>
      continueDialog this host dc =
      (Returned EndOfTurn, {| context := afterRetry st c; activeDialog_state := st' |})
  | Some code =>
      let c1 := performed c [GetUserToken (connection this) (Some code)] (responded c) in
      match lookup (activity c) (connection this) (Some code) with
      | Returned (Some token) =>
          continueDialog this host dc =
          (Returned (Completed (Some token)),
           {| context := c1; activeDialog_state := st' |})
      | Returned None =>
          continueDialog this host dc =
          (Returned EndOfTurn,
           {| context := afterRetry st c1; activeDialog_state := st' |})
      | Thrown e => continueDialog this host dc = (Thrown e, with_context c1 dc)
      end
  end.
Proof.
  intros Hv Hm Hnow Hlookup c st st'. subst c st st'.
  assert (Hto : hasTimedOut host dc = false).
  { unfold hasTimedOut. rewrite Hm. simpl. apply Z.ltb_ge. exact Hnow. }
  pose proof (recognizeToken_message this host (context dc) Hm) as HR.
  destruct (execSixDigits (toJsString (text (activity (context dc))))) as [code|].
  - unfold bind in HR. rewrite getUserToken_run, Hlookup in HR.
    destruct (lookup (activity (context dc)) (connection this) (Some code))
      as [[token|]|e].
    + now rewrite (continueDialog_run this host dc _ _ HR), Hto, Hv.
    + now rewrite (continueDialog_run this host dc _ _ HR), Hto, Hv.
    + now rewrite (continueDialog_recognition_throws this host dc e _ HR).
  - now rewrite (continueDialog_run this host dc _ _ HR), Hto, Hv.
Qed.

Lemma waiting_turn_state
    (this : OAuthPrompt) (host : Host) (dc dc' : DialogContext) :
  continueDialog this host dc = (Returned EndOfTurn, dc') ->
  activeDialog_state dc' =
  setAttemptCount (activeDialog_state dc)
    (attemptCountOf (activeDialog_state dc)
     + match validator this with
       | Some _ => 1
       | None => 0
       end).
Proof.
  intros H.
  destruct (recognizeToken this host (context dc)) as [[r|e] c1] eqn:HR.
  - rewrite (continueDialog_run this host dc r c1 HR) in H. cbv zeta in H.
    destruct (hasTimedOut host dc); [discriminate|].
    destruct (validator this) as [v|].
    + destruct (vr_verdict (v _)) as [[|]|e]; try discriminate.
      now injection H as <-.
    + rewrite Z.add_0_r. destruct (succeeded r); [discriminate|].
      now injection H as <-.
  - rewrite (continueDialog_recognition_throws this host dc e c1 HR) in H.
    discriminate.
Qed.

Lemma attemptCountOf_set (st : OAuthPromptState) (n : Z) :
  attemptCountOf (setAttemptCount st n) = n.
Proof.
  unfold attemptCountOf, setAttemptCount. simpl. now rewrite lookup_insert_eq.
Qed.

(** X8: a prompt that has waited through [k] continue turns has its counter
    at the initial value plus [k] when a validator is configured, and at the
    initial value (0 for a fresh prompt) when there is none; the deadline and
    the stored options are what they were, so the timeout is never extended
    by an attempt. *)
Theorem X8_counter_after_waiting_turns
    (this : OAuthPrompt) (turns : list (Host * TurnContext))
    (st st' : OAuthPromptState) :
  continueTurns this turns st = Some st' ->
  attemptCountOf st' =
    attemptCountOf st
    + match validator this with
      | Some _ => Z.of_nat (length turns)
      | None => 0
      end
  /\ expires st' = expires st
  /\ options st' = options st.
Proof.
  revert st. induction turns as [|[host c] rest IH]; intros st H; simpl in H.
  - injection H as <-. simpl. destruct (validator this); repeat split; lia.
  - destruct (continueDialog this host {| context := c; activeDialog_state := st |})
      as [[[|result]|e] dc'] eqn:Hturn; try discriminate.
    pose proof (waiting_turn_state this host _ _ Hturn) as Hst. simpl in Hst.
    destruct (IH _ H) as (Hcount & Hexp & Hopt).
    rewrite Hcount, Hexp, Hopt, Hst, attemptCountOf_set.
    repeat split; try reflexivity.
    destruct (validator this); simpl length; lia.
Qed.

(** X9: the clock enters a continue turn only through the comparison of the
    timeout check: two clock readings on the same side of [expires] give the
    same turn.  In particular a message that arrives exactly at [expires] is
    treated like one that arrives earlier: it has not timed out. *)
Theorem X9_clock_matters_only_past_the_deadline
    (this : OAuthPrompt) (host : Host) (dc : DialogContext) (clock1 clock2 : Z) :
  (expires (activeDialog_state dc) < clock1 <-> expires (activeDialog_state dc) < clock2) ->
  continueDialog this (at_time host clock1) dc
  = continueDialog this (at_time host clock2) dc.
Proof.
  intros Hside.
  assert (Hto : hasTimedOut (at_time host clock1) dc = hasTimedOut (at_time host clock2) dc).
  { unfold hasTimedOut. simpl. f_equal.
    destruct (Z.ltb_spec (expires (activeDialog_state dc)) clock1) as [H1|H1],
             (Z.ltb_spec (expires (activeDialog_state dc)) clock2) as [H2|H2];
      try reflexivity; exfalso; [apply Hside in H1 | apply Hside in H2]; lia. }
  destruct (recognizeToken this host (context dc)) as [[r|e] c1] eqn:HR.
  - rewrite (continueDialog_run this (at_time host clock1) dc r c1 HR).
    rewrite (continueDialog_run this (at_time host clock2) dc r c1 HR).
    now rewrite Hto.
  - rewrite (continueDialog_recognition_throws this (at_time host clock1) dc e c1 HR).
    now rewrite (continueDialog_recognition_throws this (at_time host clock2) dc e c1 HR).
Qed.

(** X10: a validator that rejects and answers the user itself (sends an
    activity that is not a trace) suppresses the retry prompt: what the turn
    does after recognition is the validator call and the validator's own
    activities, nothing more, and the prompt waits. *)
Theorem X10_validator_reply_suppresses_retry
    (this : OAuthPrompt) (host : Host) (dc : DialogContext) (v : PromptValidator)
    (r : PromptRecognizerResult) (c1 : TurnContext) :
  validator this = Some v ->
  recognizeToken this host (context dc) = (Returned r, c1) ->
  hasTimedOut host dc = false ->
  let st := activeDialog_state dc in
  let vc := validatorContext st c1 r (attemptCountOf st + 1) in
  vr_verdict (v vc) = Returned false ->
  respondsTo (vr_replies (v vc)) = true ->
  fst (continueDialog this host dc) = Returned EndOfTurn
  /\ log (context (snd (continueDialog this host dc)))
     = (log c1 ++ CallValidator vc :: map SendActivity (vr_replies (v vc)))%list.
Proof.
  intros Hv HR Hto st vc Hverdict Hreplied.
  rewrite (continueDialog_run this host dc r c1 HR), Hto, Hv. cbv zeta.
  fold st. fold vc. rewrite Hverdict. simpl. split; [reflexivity|].
  unfold afterRetry, retryDue. simpl. rewrite Hreplied, orb_true_r. simpl.
  now destruct (retryPrompt (options st)).
Qed.

(** *** [beginDialog] and an adapter without token support *)

Lemma onContext_state {A} (m : Eff TurnContext A) (dc : DialogContext) :
  activeDialog_state (snd (onContext m dc)) = activeDialog_state dc.
Proof.
  unfold onContext, zoom. now destruct (m (context dc)).
Qed.

Lemma ensureInputHint_stored (p : option Prompt) : storedWithHint p (ensureInputHint p).
Proof.
  destruct p as [[s|pa]|]; simpl; try reflexivity.
  destruct (p_inputHint pa) as [h|] eqn:Hh.
  - exists pa. rewrite Hh. now repeat split.
  - eexists. split; [reflexivity|]. now repeat split.
Qed.

Lemma lastSent_snoc (l : list Effect) (a : Prompt) :
  lastSent (l ++ [SendActivity a]) = Some a.
Proof. unfold lastSent. now rewrite last_snoc. Qed.

Lemma lastSent_after_call (l : list Effect) (e : Effect) (a : Prompt) :
  lastSent (l ++ [e; SendActivity a]) = Some a.
Proof.
  change (l ++ [e; SendActivity a])%list with (l ++ [e] ++ [SendActivity a])%list.
  rewrite app_assoc. apply lastSent_snoc.
Qed.

(** What [sendOAuthCardAsync] has sent last when it returns. *)
Lemma sendOAuthCardAsync_lastSent
    (this : OAuthPrompt) (host : Host) (prompt : option Prompt) (c c' : TurnContext)
    (lookup : Activity -> string -> option string -> Outcome (option TokenResponse)) :
  adapter_getUserToken (adapter host) = Some lookup ->
  sendOAuthCardAsync this host prompt c = (Returned tt, c') ->
  exists added,
    (length added <= 1)%nat
    /\ lastSent (log c') =
       Some (PActivity (with_attachments (promptMessage prompt)
                          (attachmentsOf (promptMessage prompt) ++ added))).
Proof.
  intros Hlookup Hrun.
  rewrite (sendOAuthCardAsync_cases this host prompt c lookup Hlookup) in Hrun.
  cbv zeta in Hrun.
  destruct (hasCard _ _).
  - injection Hrun as <-. exists []. split; [simpl; lia|]. simpl log.
    rewrite app_nil_r. simpl app. now rewrite lastSent_snoc.
  - destruct (adapter_getSignInResource _ _ _ _) as [r|e]; [|discriminate].
    injection Hrun as <-. eexists [_]. split; [simpl; lia|]. simpl log.
    now rewrite lastSent_after_call.
Qed.

(** [beginDialog], branch by branch. *)
Lemma beginDialog_cases
    (this : OAuthPrompt) (host : Host) (opts : option PromptOptions) (dc : DialogContext) :
  let st0 := initialState this host opts in
  let c := context dc in
  let c1 := performed c [GetUserToken (connection this) None] (responded c) in
  match adapter_getUserToken (adapter host) with
  | None =>
      beginDialog this host opts dc =
      (Thrown (Err "OAuthPrompt.getUserToken(): not supported for the current adapter."),
       {| context := c; activeDialog_state := st0 |})
  | Some lookup =>
      match lookup (activity c) (connection this) None with
      | Returned (Some token) =>
          beginDialog this host opts dc =
          (Returned (Completed (Some token)),
           {| context := c1; activeDialog_state := st0 |})
      | Returned None =>
          match sendOAuthCardAsync this host (prompt (options st0)) c1 with
          | (Returned _, c2) =>
              beginDialog this host opts dc =
              (Returned EndOfTurn,
               {| context := c2;
                  activeDialog_state :=
                    with_prompt st0
                      (sharedAttachments (prompt (options st0)) (lastSent (log c2))) |})
          | (Thrown e, c2) =>
              beginDialog this host opts dc =
              (Thrown e, {| context := c2; activeDialog_state := st0 |})
          end
      | Thrown e =>
          beginDialog this host opts dc =
          (Thrown e, {| context := c1; activeDialog_state := st0 |})
      end
  end.
Proof.
  intros st0 c c1. subst st0 c c1.
  unfold beginDialog, initialState. run. rewrite getUserToken_run.
  destruct (adapter_getUserToken (adapter host)) as [lookup|]; [|reflexivity].
  simpl.
  destruct (lookup (activity (context dc)) (connection this) None) as [[token|]|e];
    simpl; try reflexivity.
  match goal with
  | |- context [sendOAuthCardAsync this host ?p ?c1] =>
      destruct (sendOAuthCardAsync this host p c1) as [[u|e] c2]
  end; reflexivity.
Qed.

(** X11: however [beginDialog] ends (with the token, with the card sent, or
    with an error of the adapter), it has reset the prompt state first: the
    validator state is empty (no attempt counted); the deadline is the clock
    plus the configured timeout, or plus 900000 ms when none is configured
    (for a clock and a timeout in the range in which JavaScript adds integers
    exactly); the retry prompt is the caller's, and so is the prompt, an
    activity without input hint now accepting input.  The attachments of a
    prompt given as an activity are the caller's unless the card was sent and
    the prompt has an attachments array: the message is built on that array,
    so the stored prompt then has the attachments of the message sent, the
    caller's followed by at most one login card.  (The prompt and the retry
    prompt are taken to be distinct objects.) *)
Theorem X11_beginDialog_resets_state
    (this : OAuthPrompt) (host : Host) (opts : option PromptOptions) (dc : DialogContext) :
  let outcome := beginDialog this host opts dc in
  let st' := activeDialog_state (snd outcome) in
  let timeout' := default 900000 (timeout (settings this)) in
  state st' = ∅
  /\ (safeInteger (now host) -> safeInteger timeout' ->
      safeInteger (now host + timeout') ->
      expires st' = now host + timeout')
  /\ storedWithHint (opts ≫= retryPrompt) (retryPrompt (options st'))
  /\ match opts ≫= prompt with
     | Some (PActivity pa) =>
         exists pa',
           prompt (options st') = Some (PActivity pa')
           /\ p_inputHint pa' = Some (default AcceptingInput (p_inputHint pa))
           /\ p_type pa' = p_type pa /\ p_text pa' = p_text pa
           /\ p_value pa' = p_value pa
           /\ (fst outcome <> Returned EndOfTurn -> p_attachments pa' = p_attachments pa)
           /\ (p_attachments pa = None -> p_attachments pa' = None)
           /\ (forall own,
                 fst outcome = Returned EndOfTurn ->
                 p_attachments pa = Some own ->
                 exists added msg,
                   (length added <= 1)%nat
                   /\ p_attachments pa' = Some (own ++ added)%list
                   /\ lastSent (log (context (snd outcome))) = Some (PActivity msg)
                   /\ p_attachments msg = Some (own ++ added)%list)
     | given => prompt (options st') = given
     end.
Proof.
  intros outcome st' timeout'. subst outcome st' timeout'.
  pose proof (beginDialog_cases this host opts dc) as Hcases. cbv zeta in Hcases.
  set (st0 := initialState this host opts) in *.
  set (c1 := performed (context dc) [GetUserToken (connection this) None]
               (responded (context dc))) in *.
  (* the state as it was initialised *)
  assert (Hinit : state st0 = ∅
                  /\ expires st0 = now host + default 900000 (timeout (settings this))
                  /\ storedWithHint (opts ≫= retryPrompt) (retryPrompt (options st0))
                  /\ storedWithHint (opts ≫= prompt) (prompt (options st0))).
  { subst st0. unfold initialState. simpl. split; [reflexivity|].
    split; [now destruct (timeout (settings this))|].
    destruct opts as [o0|]; simpl; [split; apply ensureInputHint_stored | now split]. }
  destruct Hinit as (Hstate & Hexpires & Hretry & Hprompt).
  (* a state that differs from it in the attachments of the prompt at most *)
  assert (Hgoal : forall o dc',
            beginDialog this host opts dc = (o, dc') ->
            (activeDialog_state dc' = st0 /\ o <> Returned EndOfTurn)
            \/ (exists c2 lookup,
                  adapter_getUserToken (adapter host) = Some lookup
                  /\ sendOAuthCardAsync this host (prompt (options st0)) c1 = (Returned tt, c2)
                  /\ o = Returned EndOfTurn /\ context dc' = c2
                  /\ activeDialog_state dc' =
                     with_prompt st0
                       (sharedAttachments (prompt (options st0)) (lastSent (log c2))))).
  { intros o dc' Hrun.
    destruct (adapter_getUserToken (adapter host)) as [lookup|].
    - destruct (lookup (activity (context dc)) (connection this) None) as [[token|]|e].
      + rewrite Hcases in Hrun. injection Hrun as <- <-. left. now split.
      + destruct (sendOAuthCardAsync this host (prompt (options st0)) c1)
          as [[[]|e] c2] eqn:Hsend; rewrite Hcases in Hrun; injection Hrun as <- <-.
        * right. exists c2, lookup. now repeat split.
        * left. now split.
      + rewrite Hcases in Hrun. injection Hrun as <- <-. left. now split.
    - rewrite Hcases in Hrun. injection Hrun as <- <-. left. now split. }
  clear Hcases. clearbody st0 c1.
  destruct (beginDialog this host opts dc) as [o dc'] eqn:Hrun.
  cbn [fst snd].
  destruct (Hgoal o dc' eq_refl)
    as [[-> Hnot] | (c2 & lookup & Hlookup & Hsend & -> & Hc2 & ->)].
  - split; [exact Hstate|]. split; [intros _ _ _; exact Hexpires|].
    split; [exact Hretry|].
    destruct (opts ≫= prompt) as [[s0|pa]|]; try exact Hprompt.
    destruct Hprompt as (pa' & Hpa' & Hhint & Htype & Htext & Hatt & Hvalue).
    exists pa'.
    split; [exact Hpa'|]. split; [exact Hhint|]. split; [exact Htype|].
    split; [exact Htext|]. split; [exact Hvalue|].
    split; [intros _; exact Hatt|].
    split; [intros Hnone; now rewrite Hatt|].
    intros own Hend. contradiction.
  - split; [exact Hstate|]. split; [intros _ _ _; exact Hexpires|].
    split; [exact Hretry|].
    destruct (sendOAuthCardAsync_lastSent this host _ _ _ lookup Hlookup Hsend)
      as (added & Hadded & Hlast).
    rewrite Hc2, Hlast.
    destruct (opts ≫= prompt) as [[s0|pa]|]; cbn [storedWithHint] in Hprompt.
    + rewrite Hprompt. reflexivity.
    + destruct Hprompt as (pa' & Hpa' & Hhint & Htype & Htext & Hatt & Hvalue).
      rewrite Hpa'. simpl. unfold attachmentsOf. rewrite Hatt.
      destruct (p_attachments pa) as [own|].
      * eexists. split; [reflexivity|]. simpl.
        split; [exact Hhint|]. split; [exact Htype|].
        split; [exact Htext|]. split; [exact Hvalue|].
        split; [intros Hnot; contradiction|].
        split; [discriminate|].
        intros own' _ [= <-].
        eexists added, _. split; [exact Hadded|]. split; [reflexivity|].
        split; reflexivity.
      * exists pa'.
        split; [reflexivity|]. split; [exact Hhint|]. split; [exact Htype|].
        split; [exact Htext|]. split; [exact Hvalue|].
        split; [intros Hnot; contradiction|].
        split; [intros _; exact Hatt|].
        discriminate.
    + rewrite Hprompt. reflexivity.
Qed.

(** X12: with an adapter that has no [getUserToken], [beginDialog] throws
    the "not supported" error of [getUserToken] with nothing sent or called,
    [sendOAuthCardAsync] throws its own before it builds anything, and a
    continue turn throws as soon as a message brings six digits to look up. *)
Theorem X12_adapter_without_getUserToken
    (this : OAuthPrompt) (host : Host) :
  adapter_getUserToken (adapter host) = None ->
  let unsupported :=
    Err "OAuthPrompt.getUserToken(): not supported for the current adapter." in
  (forall opts dc,
     fst (beginDialog this host opts dc) = Thrown unsupported
     /\ context (snd (beginDialog this host opts dc)) = context dc)
  /\ (forall prompt c,
        sendOAuthCardAsync this host prompt c =
        (Thrown (Err "OAuthPrompt.sendOAuthCardAsync(): not supported for the current adapter."),
         c))
  /\ (forall dc code,
        type (activity (context dc)) = Message ->
        execSixDigits (toJsString (text (activity (context dc)))) = Some code ->
        continueDialog this host dc = (Thrown unsupported, dc)).
Proof.
  intros Hnone unsupported. subst unsupported. split; [|split].
  - intros opts dc. unfold beginDialog. run. rewrite getUserToken_run, Hnone.
    simpl. now destruct dc as [[] ?].
  - intros prompt c. unfold sendOAuthCardAsync. now rewrite Hnone.
  - intros dc code Hm Hcode.
    assert (HR := recognizeToken_message this host (context dc) Hm).
    rewrite Hcode in HR. unfold bind in HR. rewrite getUserToken_run, Hnone in HR.
    rewrite (continueDialog_recognition_throws this host dc _ _ HR).
    now destruct dc.
Qed.

(** *** The further properties on the scenarios *)

(** A prompt that brings its own OAuth card is sent with that card alone. *)
Lemma X1_witness :
  exists msg,
    log (snd (sendOAuthCardAsync contoso (hostWith testAdapter 0) (Some promptWithCard)
                (freshContext (messageActivity "hi"))))
    = [SendActivity (PActivity msg)]
    /\ p_attachments msg = Some [ownCard].
Proof.
  destruct (X1_card_appended_once_attachments_kept contoso (hostWith testAdapter 0)
              (Some promptWithCard) (freshContext (messageActivity "hi"))
              (snd (sendOAuthCardAsync contoso (hostWith testAdapter 0)
                      (Some promptWithCard) (freshContext (messageActivity "hi"))))
              (fun _ _ code =>
                 if isString_eq code "482913" then Returned (Some contosoToken)
                 else Returned None)
              eq_refl eq_refl)
    as (calls & msg & added & Hlog & _ & _ & _ & Hatt & Hown & _).
  destruct (Hown eq_refl) as [-> ->].
  exists msg. split; [exact Hlog | exact Hatt].
Defined.

(** The Facebook adapter gets no OAuth card, on any channel. *)
Lemma X2_witness :
  isOAuthCardSupported (hostWith facebookAdapter 0) (messageActivity "hi") = false.
Proof.
  apply (proj2 (X2_card_kind_by_adapter_and_channel (hostWith facebookAdapter 0)
                  (messageActivity "hi"))).
  left. exists "Facebook Adapter". split; [reflexivity | now left].
Defined.

(** With app credentials on the emulator the card has the link and opens it. *)
Lemma X3_witness :
  exists msg,
    sentActivities
      (drop (length (log (freshContext emulatorActivity)))
         (log (snd (sendOAuthCardAsync contosoWithCredentials (hostWith testAdapter 0)
                      None (freshContext emulatorActivity)))))
    = [PActivity msg]
    /\ p_attachments msg =
       Some [ {| contentType := oauthCard;
                 content :=
                   OAuthCard "Contoso" "Sign in" None
                     (Some "https://login.example/signin") None OpenUrl |} ].
Proof.
  destruct (X3_oauth_card_link_and_button contosoWithCredentials (hostWith testAdapter 0)
              None (freshContext emulatorActivity)
              (snd (sendOAuthCardAsync contosoWithCredentials (hostWith testAdapter 0)
                      None (freshContext emulatorActivity)))
              (fun _ _ code =>
                 if isString_eq code "482913" then Returned (Some contosoToken)
                 else Returned None)
              {| signInLink := Some "https://login.example/signin";
                 tokenExchangeResource := None |}
              eq_refl eq_refl eq_refl eq_refl)
    as (msg & link & button & Hsent & Hatt & _ & Hexposed).
  assert (Hcredentials : oAuthAppCredentials (settings contosoWithCredentials) <> None)
    by (simpl; discriminate).
  destruct (Hexposed (or_intror (or_intror Hcredentials))) as [-> Hbutton].
  rewrite (proj2 Hbutton eq_refl) in Hatt.
  exists msg. split; [exact Hsent | exact Hatt].
Defined.

(** A login timeout of 5000 already in turn state survives the card. *)
Lemma X4_witness :
  loginTimeout (snd (sendOAuthCardAsync contoso (hostWith testAdapter 0) None
                       (contextWithTimeout (messageActivity "hi"))))
  = Some 5000.
Proof.
  exact (proj1 (X4_login_timeout_set_once contoso (hostWith testAdapter 0) None
                  (contextWithTimeout (messageActivity "hi"))
                  (snd (sendOAuthCardAsync contoso (hostWith testAdapter 0) None
                          (contextWithTimeout (messageActivity "hi"))))
                  eq_refl)
           eq_refl).
Defined.

(** A verification invoke without value: an error, and no reply. *)
Lemma X5_witness :
  exists e,
    recognizeToken contoso (hostWith testAdapter 500) (freshContext bareVerificationInvoke)
    = (Thrown e, freshContext bareVerificationInvoke)
    /\ continueDialog contoso (hostWith testAdapter 500) (turnOf bareVerificationInvoke)
       = (Thrown e, turnOf bareVerificationInvoke).
Proof.
  exact (X5_verification_invoke_without_value_throws contoso (hostWith testAdapter 500)
           (turnOf bareVerificationInvoke) eq_refl eq_refl).
Defined.

(** Of seven digits the first six are the code. *)
Lemma X6_witness :
  sixDigits "123456"
  /\ exists pre post,
       "ab1234567" = String.append pre (String.append "123456" post)
       /\ forall pre' d post',
            "ab1234567" = String.append pre' (String.append d post') ->
            sixDigits d ->
            (String.length pre <= String.length pre')%nat.
Proof.
  exact (proj2 (X6_magic_code_is_leftmost_six_digit_run "ab1234567") "123456" eq_refl).
Defined.

(** The scenario of the specification: the code arrives after 500 ms and the
    prompt completes with the provider's token. *)
Lemma X7_witness :
  continueDialog contoso (hostWith testAdapter 500)
    (turnOf (messageActivity "Your code is 482913"))
  = (Returned (Completed (Some contosoToken)),
     {| context :=
          performed (freshContext (messageActivity "Your code is 482913"))
            [GetUserToken "Contoso" (Some "482913")] false;
        activeDialog_state := setAttemptCount waitingState 0 |}).
Proof.
  refine (X7_in_time_message_decided_by_lookup contoso (hostWith testAdapter 500)
            (turnOf (messageActivity "Your code is 482913"))
            (fun _ _ code =>
               if isString_eq code "482913" then Returned (Some contosoToken)
               else Returned None)
            eq_refl eq_refl _ eq_refl).
  simpl. lia.
Defined.

(** Two rejected answers: the counter is at 2. *)
Lemma X8_witness :
  continueTurns (contosoWith rejectAndReply)
    [ (hostWith testAdapter 100, freshContext (messageActivity "hello"));
      (hostWith testAdapter 200, freshContext (messageActivity "hello again")) ]
    waitingState
  = Some (setAttemptCount (setAttemptCount waitingState 1) 2)
  /\ attemptCountOf (setAttemptCount (setAttemptCount waitingState 1) 2) = 2
  /\ expires (setAttemptCount (setAttemptCount waitingState 1) 2) = 1000.
Proof.
  split; [exact eq_refl|].
  destruct (X8_counter_after_waiting_turns (contosoWith rejectAndReply)
              [ (hostWith testAdapter 100, freshContext (messageActivity "hello"));
                (hostWith testAdapter 200, freshContext (messageActivity "hello again")) ]
              waitingState (setAttemptCount (setAttemptCount waitingState 1) 2) eq_refl)
    as (Hcount & Hexpires & _).
  split; [exact Hcount | exact Hexpires].
Defined.

(** Exactly at the deadline a message is handled as at any earlier time. *)
Lemma X9_witness :
  continueDialog contoso (at_time (hostWith testAdapter 0) 1000)
    (turnOf (messageActivity "hello"))
  = continueDialog contoso (at_time (hostWith testAdapter 0) 500)
      (turnOf (messageActivity "hello")).
Proof.
  apply X9_clock_matters_only_past_the_deadline.
  simpl. split; intros H; lia.
Defined.

(** The rejecting validator answers by itself; no retry prompt follows. *)
Lemma X10_witness :
  fst (continueDialog (contosoWith rejectAndReply) (hostWith testAdapter 500)
         (turnOf (messageActivity "hello")))
  = Returned EndOfTurn
  /\ sentActivities
       (log (context (snd (continueDialog (contosoWith rejectAndReply)
                             (hostWith testAdapter 500)
                             (turnOf (messageActivity "hello"))))))
     = [PText "Please sign in."].
Proof.
  destruct (X10_validator_reply_suppresses_retry (contosoWith rejectAndReply)
              (hostWith testAdapter 500) (turnOf (messageActivity "hello"))
              rejectAndReply notRecognized (freshContext (messageActivity "hello"))
              eq_refl eq_refl eq_refl eq_refl eq_refl)
    as [Hwait Hlog].
  split; [exact Hwait|]. rewrite Hlog. reflexivity.
Defined.

(** A prompt with one hero card, begun at time 0 with a timeout of 1000: the
    deadline is 1000, the stored prompt accepts input, and its attachments
    are those of the message sent. *)
Lemma X11_witness :
  expires
    (activeDialog_state
       (snd (beginDialog contoso (hostWith testAdapter 0)
               (Some {| prompt := Some promptWithHeroCard; retryPrompt := None |})
               (turnOf (messageActivity "hi"))))) = 1000
  /\ exists pa',
       prompt
         (options
            (activeDialog_state
               (snd (beginDialog contoso (hostWith testAdapter 0)
                       (Some {| prompt := Some promptWithHeroCard; retryPrompt := None |})
                       (turnOf (messageActivity "hi")))))) = Some (PActivity pa')
       /\ p_inputHint pa' = Some AcceptingInput
       /\ exists added msg,
            (length added <= 1)%nat
            /\ p_attachments pa' = Some ([heroCard] ++ added)%list
            /\ lastSent
                 (log
                    (context
                       (snd (beginDialog contoso (hostWith testAdapter 0)
                               (Some {| prompt := Some promptWithHeroCard;
                                        retryPrompt := None |})
                               (turnOf (messageActivity "hi"))))))
               = Some (PActivity msg)
            /\ p_attachments msg = Some ([heroCard] ++ added)%list.
Proof.
  destruct (X11_beginDialog_resets_state contoso (hostWith testAdapter 0)
              (Some {| prompt := Some promptWithHeroCard; retryPrompt := None |})
              (turnOf (messageActivity "hi")))
    as (_ & Hexpires & _ & pa' & Hstored & Hhint & _ & _ & _ & _ & _ & Hshared).
  split.
  - apply Hexpires; unfold safeInteger; simpl; lia.
  - exists pa'. split; [exact Hstored|]. split; [exact Hhint|].
    exact (Hshared [heroCard] eq_refl eq_refl).
Defined.

(** Without [getUserToken] the prompt cannot even begin. *)
Lemma X12_witness :
  fst (beginDialog contoso (hostWith bareAdapter 0) None (turnOf (messageActivity "hi")))
  = Thrown (Err "OAuthPrompt.getUserToken(): not supported for the current adapter.")
  /\ context (snd (beginDialog contoso (hostWith bareAdapter 0) None
                     (turnOf (messageActivity "hi"))))
     = freshContext (messageActivity "hi").
Proof.
  exact (proj1 (X12_adapter_without_getUserToken contoso (hostWith bareAdapter 0) eq_refl)
           None (turnOf (messageActivity "hi"))).
Defined.

End OAuthPromptProperties.

(** * Properties of the DialogManager *)

Module DialogManagerProperties.

Import DialogManager.

Ltac run :=
  unfold bind, ret, throw, gets, modify, tryCatch, onStack, zoom; simpl.

(** *** What the dialog stack cannot touch *)

Lemma onStack_frame {A} (m : Eff DialogState A) (w : World) :
  let w' := snd (onStack m w) in
  storage w' = storage w
  /\ _lastAccess (cache w') = _lastAccess (cache w)
  /\ log w' = log w.
Proof.
  unfold onStack, zoom. destruct (m (dialogStack (cache w))). simpl. auto.
Qed.

Lemma dispatch_run (ds : DialogSet) (e : DialogEvent) (frames : list DialogInstance) (w : World) :
  exists handled k w',
    dispatch ds e true frames w = (Returned handled, w')
    /\ (k <= length frames)%nat
    /\ (handled = false -> k = length frames)
    /\ log w' = (log w ++ handlersAsked e k frames)%list
    /\ storage w' = storage w
    /\ _lastAccess (cache w') = _lastAccess (cache w).
Proof.
  revert w. induction frames as [|f below IH]; intros w.
  - exists false, 0%nat, w. simpl. unfold ret, handlersAsked. simpl.
    rewrite app_nil_r. repeat split; auto.
  - simpl. run.
    destruct (onDialogEvent ds f e (dialogStack (cache w))) as [handled st'] eqn:Hh.
    simpl. destruct handled.
    + eexists true, 1%nat, _. split; [reflexivity|]. simpl.
      repeat split; auto; try lia; discriminate.
    + match goal with
      | |- context [dispatch ds e true below ?w1] =>
          destruct (IH w1) as (handled & k & w' & Hrun & Hk & Hall & Hlog & Hsto & Hla)
      end.
      exists handled, (S k), w'. rewrite Hrun. split; [reflexivity|].
      simpl in *. repeat split; auto; try lia.
      rewrite Hlog. unfold handlersAsked. simpl. now rewrite <- app_assoc.
Qed.

Lemma emitEvent_run (ds : DialogSet) (err : JsError) (w : World) :
  exists handled k w',
    emitEvent ds DialogEvents.error err true true 0 w = (Returned handled, w')
    /\ (k <= length (dialogStack (cache w)))%nat
    /\ (handled = false -> k = length (dialogStack (cache w)))
    /\ log w' = (log w ++ handlersAsked (errorEvent err) k (rev (dialogStack (cache w))))%list
    /\ storage w' = storage w
    /\ _lastAccess (cache w') = _lastAccess (cache w).
Proof.
  unfold emitEvent. run.
  match goal with
  | |- context [dispatch ds ?e true ?frames ?w1] =>
      destruct (dispatch_run ds e frames w1)
        as (handled & k & w' & Hrun & Hk & Hall & Hlog & Hsto & Hla)
  end.
  exists handled, k, w'. rewrite Hrun. rewrite length_rev in Hk, Hall.
  simpl in *. repeat split; auto.
Qed.

Lemma framed_onStack {A} (m : Eff DialogState A) : framed (onStack m).
Proof. intros w. apply onStack_frame. Qed.

Lemma framed_gets {A} (f : World -> A) : framed (gets f).
Proof. intros w. unfold gets. simpl. auto. Qed.

Lemma framed_ret {A} (a : A) : framed (@ret World A a).
Proof. intros w. unfold ret. simpl. auto. Qed.

Lemma framed_bind {A B} (m : Eff World A) (k : A -> Eff World B) :
  framed m -> (forall a, framed (k a)) -> framed (bind m k).
Proof.
  intros Hm Hk w. unfold bind. specialize (Hm w).
  destruct (m w) as [[a|e] w1]; simpl in *; [|exact Hm].
  destruct (Hk a w1) as (H1 & H2 & H3). destruct Hm as (H4 & H5 & H6).
  repeat split; congruence.
Qed.

Lemma runDialogs_frame (this : DialogManager) (input : TurnInput) : framed (runDialogs this input).
Proof.
  unfold runDialogs. apply framed_bind; [apply framed_gets|]. intros st.
  destruct (activeDialog st); [|apply framed_onStack].
  apply framed_bind; [apply framed_onStack|]. intros r.
  destruct (status r); first [apply framed_onStack | apply framed_ret].
Qed.

(** The loop saves nothing and leaves the last access alone; all it logs are
    handler invocations. *)
Lemma turnLoop_frame (this : DialogManager) (input : TurnInput) (fuel : nat) :
  forall w o w',
    turnLoop this input fuel w = Some (o, w') ->
    storage w' = storage w
    /\ _lastAccess (cache w') = _lastAccess (cache w)
    /\ exists asked,
         log w' = (log w ++ asked)%list
         /\ Forall (fun e => exists i ev, e = HandleEvent i ev) asked.
Proof.
  induction fuel as [|fuel IH]; intros w o w' H; [discriminate|].
  simpl in H.
  destruct (runDialogs_frame this input w) as (Hs & Hl & Hg).
  destruct (runDialogs this input w) as [[r|err] w1]; simpl in *.
  - injection H as <- <-. repeat split; auto.
    exists []. now rewrite app_nil_r, Hg.
  - destruct (emitEvent_run (dialogSet this) err w1)
      as (handled & k & w2 & Hrun & _ & _ & Hlog & Hsto & Hla).
    rewrite Hrun in H.
    assert (Hasked : Forall (fun e => exists i ev, e = HandleEvent i ev)
                       (handlersAsked (errorEvent err) k (rev (dialogStack (cache w1))))).
    { unfold handlersAsked. apply Forall_fmap, Forall_true. intros f. simpl. eauto. }
    destruct handled.
    + destruct (IH w2 o w' H) as (Hs' & Hl' & asked & Hlog' & Hall).
      repeat split; try congruence.
      exists (handlersAsked (errorEvent err) k (rev (dialogStack (cache w1))) ++ asked)%list.
      split.
      * rewrite Hlog', Hlog, Hg. now rewrite app_assoc.
      * apply Forall_app. now split.
    + injection H as <- <-. repeat split; try congruence.
      exists (handlersAsked (errorEvent err) k (rev (dialogStack (cache w1)))).
      split; [congruence | exact Hasked].
Qed.

Lemma prepareTurn_cases (this : DialogManager) (input : TurnInput) (w : World) :
  if isConfigured (rootDialogId this) && conversationState this
  then prepareTurn this input w = (Returned tt, prepared this input w)
  else exists e, prepareTurn this input w = (Thrown e, w).
Proof.
  unfold prepareTurn, prepared, hasExpired, loadedLastAccess.
  destruct (isConfigured (rootDialogId this)); simpl; [|run; eauto].
  destruct (conversationState this); simpl; [|run; eauto].
  unfold load, lastAccessProperty_get, lastAccessProperty_set,
    conversationState_clear, dialogsProperty_get, dialogStack, with_cache.
  run.
  destruct (_lastAccess (storage w)) as [t|]; simpl;
    (destruct (expireAfter this) as [e|]; simpl;
     [destruct (Z.leb e _); simpl|]);
    destruct (_dialogs (storage w)); reflexivity.
Qed.

Lemma configured_split (this : DialogManager) :
  isConfigured (rootDialogId this) = true ->
  conversationState this = true ->
  isConfigured (rootDialogId this) && conversationState this = true.
Proof. now intros -> ->. Qed.

(** C4 (amended): when an exception escapes [beginDialog] or
    [continueDialog] in the turn driver, the driver emits an error event that
    goes from the leaf of the stack toward the root, handler by handler.  If
    no dialog consumes it, the same exception is re-raised to the caller of
    the driver and nothing is saved: no [saveAllChanges], no trace, the store
    as it was.  If a dialog consumes it, the driver goes round its loop again
    and re-runs the dialogs from the state the handler left; the turn
    completes normally, with the state saved and the trace sent, once a round
    returns. *)
Theorem C4_error_event_then_rethrow_or_retry
    (this : DialogManager) (input : TurnInput) (fuel : nat) (w : World)
    (err : JsError) (w2 : World) :
  isConfigured (rootDialogId this) = true ->
  conversationState this = true ->
  runDialogs this input (prepared this input w) = (Thrown err, w2) ->
  exists handled k w3,
    emitEvent (dialogSet this) DialogEvents.error err true true 0 w2
      = (Returned handled, w3)
    /\ log w3 =
       (log w ++ handlersAsked (errorEvent err) k (rev (dialogStack (cache w2))))%list
    /\ (handled = false -> k = length (dialogStack (cache w2)))
    /\ storage w3 = storage w
    /\ (handled = false -> onTurn this input (S fuel) w = Some (Thrown err, w3))
    /\ (handled = true ->
        onTurn this input (S fuel) w =
        match turnLoop this input fuel w3 with
        | None => None
        | Some (Thrown e, w4) => Some (Thrown e, w4)
        | Some (Returned r, w4) =>
            Some (Returned {| turnResult := r |},
                  {| storage := cache w4;
                     cache := cache w4;
                     log := (log w4 ++ [SaveAllChanges (cache w4); SendTrace (cache w4)])%list |})
        end).
Proof.
  intros Hroot Hstate Hrun.
  pose proof (prepareTurn_cases this input w) as Hprep.
  rewrite (configured_split this Hroot Hstate) in Hprep.
  destruct (runDialogs_frame this input (prepared this input w)) as (Hs & _ & Hg).
  rewrite Hrun in Hs, Hg. simpl in Hs, Hg.
  destruct (emitEvent_run (dialogSet this) err w2)
    as (handled & k & w3 & Hemit & _ & Hall & Hlog & Hsto & _).
  exists handled, k, w3.
  split; [exact Hemit|]. split; [now rewrite Hlog, Hg|].
  split; [exact Hall|]. split; [congruence|].
  unfold onTurn. rewrite Hprep. cbn [turnLoop]. rewrite Hrun, Hemit.
  split; intros ->.
  - reflexivity.
  - destruct (turnLoop this input fuel w3) as [[[r|e] w4]|]; try reflexivity.
    unfold finishTurn, saveAllChanges, sendTrace, with_log. run.
    now rewrite <- app_assoc.
Qed.

(** C9: a turn that completes writes back to [_lastAccess] the value it
    loaded (the stored one; the clock only when none was stored), and no turn
    changes a stored last access.  So through any sequence of turns the
    stored last access stays what it was, and with [expireAfter] set the turn
    driver clears the conversation state (the dialogs start from an empty
    stack) on any later turn at which [expireAfter] milliseconds have passed
    since that first recorded access, whatever turns came in between; before
    that the dialog stack is kept. *)
Theorem C9_last_access_is_written_back_unchanged (this : DialogManager) :
  (forall input fuel w o w',
     onTurn this input fuel w = Some (o, w') ->
     (forall r, o = Returned r ->
        _lastAccess (storage w') = Some (loadedLastAccess input w))
     /\ (forall t, _lastAccess (storage w) = Some t ->
           _lastAccess (storage w') = Some t))
  /\ (forall inputs fuel w w' t,
        _lastAccess (storage w) = Some t ->
        runTurns this fuel inputs w = Some w' ->
        _lastAccess (storage w') = Some t)
  /\ (forall inputs input fuel w w' t e,
        isConfigured (rootDialogId this) = true ->
        conversationState this = true ->
        expireAfter this = Some e ->
        _lastAccess (storage w) = Some t ->
        runTurns this fuel inputs w = Some w' ->
        prepareTurn this input w' =
        (Returned tt,
         {| storage := storage w';
            cache :=
              {| _lastAccess := Some t;
                 _dialogs :=
                   Some (if Z.leb e (clock_now input - t) then []
                         else dialogStack (storage w')) |};
            log := log w' |})).
Proof.
  assert (Hturn : forall input fuel w o w',
            onTurn this input fuel w = Some (o, w') ->
            (forall r, o = Returned r ->
               _lastAccess (storage w') = Some (loadedLastAccess input w))
            /\ (forall t, _lastAccess (storage w) = Some t ->
                  _lastAccess (storage w') = Some t)).
  { intros input fuel w o w' H. unfold onTurn in H.
    pose proof (prepareTurn_cases this input w) as Hprep.
    destruct (isConfigured (rootDialogId this) && conversationState this).
    - rewrite Hprep in H.
      destruct (turnLoop this input fuel (prepared this input w))
        as [[[r|e] w2]|] eqn:Hloop; [| |discriminate].
      + destruct (turnLoop_frame this input fuel _ _ _ Hloop) as (_ & Hla & _).
        unfold finishTurn, saveAllChanges, sendTrace, with_log in H. revert H. run.
        intros [= <- <-]. simpl. rewrite Hla. simpl.
        split; [reflexivity|]. intros t Ht. unfold loadedLastAccess. now rewrite Ht.
      + destruct (turnLoop_frame this input fuel _ _ _ Hloop) as (Hs & _ & _).
        injection H as <- <-. split; [discriminate|]. now rewrite Hs.
    - destruct Hprep as [e Hprep]. rewrite Hprep in H. injection H as <- <-.
      split; [discriminate | auto]. }
  assert (Hturns : forall inputs fuel w w' t,
            _lastAccess (storage w) = Some t ->
            runTurns this fuel inputs w = Some w' ->
            _lastAccess (storage w') = Some t).
  { induction inputs as [|input rest IH]; intros fuel w w' t Ht H; simpl in H.
    - now injection H as <-.
    - destruct (onTurn this input fuel w) as [[o w1]|] eqn:H1; [|discriminate].
      apply (IH fuel w1 w' t); [|exact H].
      now apply (proj2 (Hturn input fuel w o w1 H1)). }
  split; [exact Hturn|]. split; [exact Hturns|].
  intros inputs input fuel w w' t e Hroot Hstate He Ht Hrun.
  pose proof (prepareTurn_cases this input w') as Hprep.
  rewrite (configured_split this Hroot Hstate) in Hprep. rewrite Hprep.
  unfold prepared, hasExpired, loadedLastAccess.
  now rewrite He, (Hturns inputs fuel w w' t Ht Hrun).
Qed.

(** *** The statements on the scenarios *)

Import ManagerScenarios.

(** The start of the root dialog fails and its handler consumes the error:
    the driver goes round again, the dialog waits, and the turn completes
    with the state saved and the trace sent. *)
Lemma C4_witness :
  onTurn (managerOf recovering None) (turnAt 0) 2 newWorld
  = Some (Returned {| turnResult := waitingResult |},
          {| storage := {| _lastAccess := Some 0; _dialogs := Some rootOnStack |};
             cache := {| _lastAccess := Some 0; _dialogs := Some rootOnStack |};
             log :=
               [ HandleEvent "root" (errorEvent (Err "first failure"));
                 SaveAllChanges {| _lastAccess := Some 0; _dialogs := Some rootOnStack |};
                 SendTrace {| _lastAccess := Some 0; _dialogs := Some rootOnStack |} ] |}).
Proof.
  destruct (C4_error_event_then_rethrow_or_retry (managerOf recovering None) (turnAt 0)
              1 newWorld (Err "first failure") afterFirstFailure
              eq_refl eq_refl eq_refl)
    as (handled & k & w3 & Hemit & _ & _ & _ & _ & Hretry).
  injection Hemit as <- <-.
  exact (Hretry eq_refl).
Defined.

(** The sentence of the specification fails when the round after a consumed error fails as
    well: the start of the flaky dialog throws, its handler consumes that
    error, the driver re-runs the dialog, which throws again, and this second
    error, which nobody consumes, is what the caller gets; nothing is saved. *)
Lemma C4_counterexample :
  runDialogs (managerOf flaky None) (turnAt 0)
    (prepared (managerOf flaky None) (turnAt 0) newWorld)
  = (Thrown (Err "first failure"), afterFirstFailure)
  /\ fst (emitEvent flaky DialogEvents.error (Err "first failure") true true 0
            afterFirstFailure)
     = Returned true
  /\ onTurn (managerOf flaky None) (turnAt 0) 2 newWorld
     = Some (Thrown (Err "second failure"),
             {| storage := emptyStore;
                cache := {| _lastAccess := Some 0; _dialogs := Some rootOnStack |};
                log :=
                  [ HandleEvent "root" (errorEvent (Err "first failure"));
                    HandleEvent "root" (errorEvent (Err "second failure")) ] |}).
Proof. repeat split. Qed.

(** A conversation that began at time 0 with [expireAfter] 1000: after turns
    at 400 and 800 the stored last access is still 0 and the stack is still
    there, and the turn at 1200, 400 ms after the one before, finds the
    conversation expired and starts from an empty stack. *)
Lemma C9_witness :
  exists w',
    runTurns (managerOf steady (Some 1000)) 1 [turnAt 400; turnAt 800] afterFirstTurn
    = Some w'
    /\ storage w' = {| _lastAccess := Some 0; _dialogs := Some rootOnStack |}
    /\ prepareTurn (managerOf steady (Some 1000)) (turnAt 1200) w'
       = (Returned tt,
          {| storage := storage w';
             cache := {| _lastAccess := Some 0; _dialogs := Some [] |};
             log := log w' |}).
Proof.
  eexists. split; [reflexivity|]. split; [reflexivity|].
  exact (proj2 (proj2 (C9_last_access_is_written_back_unchanged
                         (managerOf steady (Some 1000))))
           [turnAt 400; turnAt 800] (turnAt 1200) 1%nat afterFirstTurn _ 0 1000
           eq_refl eq_refl eq_refl eq_refl eq_refl).
Defined.

Lemma stubborn_round (input : TurnInput) (w : World) :
  exists e w1,
    runDialogs (managerOf stubborn None) input w = (Thrown e, w1)
    /\ dialogStack (cache w1) <> [].
Proof.
  unfold runDialogs. run.
  destruct (dialogStack (cache w)) as [|d l] eqn:Hst.
  - simpl. eexists _, _. split; [reflexivity|].
    unfold push. simpl. rewrite ?Hst. discriminate.
  - destruct (activeDialog (d :: l)); simpl.
    + eexists _, _. split; [reflexivity|]. simpl. rewrite ?Hst. discriminate.
    + eexists _, _. split; [reflexivity|].
      unfold push. simpl. rewrite ?Hst. discriminate.
Qed.

Lemma stubborn_handler_consumes (e : JsError) (w : World) :
  dialogStack (cache w) <> [] ->
  exists w2, emitEvent stubborn DialogEvents.error e true true 0 w = (Returned true, w2).
Proof.
  intros Hst. unfold emitEvent. run.
  destruct (rev (dialogStack (cache w))) as [|f below] eqn:Hrev.
  - apply (f_equal (@rev _)) in Hrev. rewrite rev_involutive in Hrev.
    contradiction.
  - simpl. run. eauto.
Qed.

(** The loop has no bound of its own: with a dialog that fails on every round
    and a handler that consumes every error, no number of rounds ends the
    turn. *)
Lemma consumed_errors_can_loop_forever (input : TurnInput) (fuel : nat) (w : World) :
  turnLoop (managerOf stubborn None) input fuel w = None.
Proof.
  revert w. induction fuel as [|fuel IH]; intros w; [reflexivity|].
  cbn [turnLoop].
  destruct (stubborn_round input w) as (e & w1 & -> & Hst).
  destruct (stubborn_handler_consumes e w1 Hst) as (w2 & Hemit).
  change (dialogSet (managerOf stubborn None)) with stubborn.
  rewrite Hemit. apply IH.
Qed.

(** * Further properties of the DialogManager *)

(** X13: a manager without root dialog, or without conversation state,
    refuses the turn at once: [onTurn] throws the configuration error (the
    missing root dialog is reported first) and has touched nothing: no state
    is loaded, nothing is logged or saved, whatever the fuel. *)
Theorem X13_configuration_errors
    (this : DialogManager) (input : TurnInput) (fuel : nat) (w : World) :
  (isConfigured (rootDialogId this) = false ->
   onTurn this input fuel w =
   Some (Thrown (Err "DialogManager.onTurn: the bots 'rootDialog' has not been configured."),
         w))
  /\ (isConfigured (rootDialogId this) = true ->
      conversationState this = false ->
      onTurn this input fuel w =
      Some (Thrown (Err "DialogManager.onTurn: the bots 'conversationState' has not been configured."),
            w)).
Proof.
  unfold onTurn, prepareTurn. split.
  - intros ->. reflexivity.
  - intros -> ->. reflexivity.
Qed.

(** X14: the edge values of [expireAfter].  Without [expireAfter] the turn
    driver never clears the conversation state, however long ago the last
    access was; with [expireAfter] zero or negative it clears it on every
    turn whose clock is not behind the last access, the very first turn of a
    conversation included. *)
Theorem X14_expireAfter_absent_or_not_positive
    (this : DialogManager) (input : TurnInput) (w : World) :
  isConfigured (rootDialogId this) = true ->
  conversationState this = true ->
  let loaded := default (clock_default input) (_lastAccess (storage w)) in
  (expireAfter this = None ->
   prepareTurn this input w =
   (Returned tt,
    {| storage := storage w;
       cache := {| _lastAccess := Some loaded;
                   _dialogs := Some (dialogStack (storage w)) |};
       log := log w |}))
  /\ (forall e,
        expireAfter this = Some e ->
        e <= 0 ->
        loaded <= clock_now input ->
        prepareTurn this input w =
        (Returned tt,
         {| storage := storage w;
            cache := {| _lastAccess := Some loaded; _dialogs := Some [] |};
            log := log w |})).
Proof.
  intros Hroot Hstate loaded.
  pose proof (prepareTurn_cases this input w) as Hprep.
  rewrite (configured_split this Hroot Hstate) in Hprep. rewrite Hprep.
  unfold prepared, hasExpired, loadedLastAccess. fold loaded. split.
  - now intros ->.
  - intros e -> He Hclock.
    assert (Hle : Z.leb e (clock_now input - loaded) = true) by (apply Z.leb_le; lia).
    now rewrite Hle.
Qed.

(** X15: [onTurn] saves and traces exactly when it returns.  A turn that
    returns has saved the conversation state once, as the dialogs left it,
    and then sent one trace, the last thing it does (what the trace carries
    is not stated here); a turn that throws, for whatever reason, has saved
    nothing and sent no trace.  In both cases all the turn does before is
    invoke error handlers. *)
Theorem X15_saved_and_traced_iff_returned
    (this : DialogManager) (input : TurnInput) (fuel : nat) (w w' : World)
    (o : Outcome DialogManagerResult) :
  onTurn this input fuel w = Some (o, w') ->
  exists asked,
    Forall isHandlerCall asked
    /\ match o with
       | Returned _ =>
           storage w' = cache w'
           /\ exists snapshot,
                log w' =
                (log w ++ asked ++ [SaveAllChanges (cache w'); SendTrace snapshot])%list
       | Thrown _ =>
           storage w' = storage w /\ log w' = (log w ++ asked)%list
       end.
Proof.
  intros H. unfold onTurn in H.
  pose proof (prepareTurn_cases this input w) as Hprep.
  destruct (isConfigured (rootDialogId this) && conversationState this).
  - rewrite Hprep in H.
    destruct (turnLoop this input fuel (prepared this input w))
      as [[[r|e] w2]|] eqn:Hloop; [| |discriminate].
    + destruct (turnLoop_frame this input fuel _ _ _ Hloop)
        as (_ & _ & asked & Hlog & Hasked).
      unfold finishTurn, saveAllChanges, sendTrace, with_log in H. revert H. run.
      intros [= <- <-]. exists asked. split; [exact Hasked|]. simpl.
      split; [reflexivity|]. exists (cache w2). rewrite Hlog. simpl.
      now rewrite <- !app_assoc.
    + destruct (turnLoop_frame this input fuel _ _ _ Hloop)
        as (Hs & _ & asked & Hlog & Hasked).
      injection H as <- <-. exists asked. split; [exact Hasked|].
      split; [exact Hs | exact Hlog].
  - destruct Hprep as [e Hprep]. rewrite Hprep in H. injection H as <- <-.
    exists []. split; [constructor|]. split; [reflexivity | now rewrite app_nil_r].
Qed.

Lemma onTurn_keeps_stored_lastAccess
    (this : DialogManager) (input : TurnInput) (fuel : nat) (w w' : World)
    (o : Outcome DialogManagerResult) (t : Z) :
  _lastAccess (storage w) = Some t ->
  onTurn this input fuel w = Some (o, w') ->
  _lastAccess (storage w') = Some t.
Proof.
  intros Ht H. unfold onTurn in H.
  pose proof (prepareTurn_cases this input w) as Hprep.
  destruct (isConfigured (rootDialogId this) && conversationState this).
  - rewrite Hprep in H.
    destruct (turnLoop this input fuel (prepared this input w))
      as [[[r|e] w2]|] eqn:Hloop; [| |discriminate].
    + destruct (turnLoop_frame this input fuel _ _ _ Hloop) as (_ & Hla & _).
      unfold finishTurn, saveAllChanges, sendTrace, with_log in H. revert H. run.
      intros [= <- <-]. simpl. rewrite Hla. simpl.
      unfold loadedLastAccess. now rewrite Ht.
    + destruct (turnLoop_frame this input fuel _ _ _ Hloop) as (Hs & _ & _).
      injection H as <- <-. now rewrite Hs.
  - destruct Hprep as [e Hprep]. rewrite Hprep in H. now injection H as <- <-.
Qed.

Lemma runTurns_keeps_stored_lastAccess
    (this : DialogManager) (fuel : nat) (inputs : list TurnInput) :
  forall w w' t,
    _lastAccess (storage w) = Some t ->
    runTurns this fuel inputs w = Some w' ->
    _lastAccess (storage w') = Some t.
Proof.
  induction inputs as [|input rest IH]; intros w w' t Ht H; simpl in H.
  - now injection H as <-.
  - destruct (onTurn this input fuel w) as [[o w1]|] eqn:H1; [|discriminate].
    apply (IH w1 w' t); [|exact H].
    exact (onTurn_keeps_stored_lastAccess this input fuel w w1 o t Ht H1).
Qed.

(** X16: once a conversation has expired it stays expired.  If
    [expireAfter] milliseconds had passed since the stored last access at
    some clock reading, then after any further turns every turn whose clock
    is not behind that reading finds the stack empty and begins the root
    dialog, instead of continuing what the turns before it saved. *)
Theorem X16_expired_conversation_restarts_every_turn
    (this : DialogManager) (inputs : list TurnInput) (input : TurnInput)
    (fuel : nat) (w w' : World) (t e expiredAt : Z) :
  isConfigured (rootDialogId this) = true ->
  conversationState this = true ->
  expireAfter this = Some e ->
  _lastAccess (storage w) = Some t ->
  e <= expiredAt - t ->
  runTurns this fuel inputs w = Some w' ->
  expiredAt <= clock_now input ->
  exists w1,
    prepareTurn this input w' = (Returned tt, w1)
    /\ dialogStack (cache w1) = []
    /\ runDialogs this input w1 =
       onStack (beginDialog (dialogSet this) (default "" (rootDialogId this)) input) w1.
Proof.
  intros Hroot Hstate He Ht Hexpired Hrun Hclock.
  pose proof (runTurns_keeps_stored_lastAccess this fuel inputs w w' t Ht Hrun) as Ht'.
  pose proof (prepareTurn_cases this input w') as Hprep.
  rewrite (configured_split this Hroot Hstate) in Hprep.
  exists (prepared this input w'). split; [exact Hprep|].
  assert (Hstack : dialogStack (cache (prepared this input w')) = []).
  { unfold prepared, hasExpired, loadedLastAccess. rewrite He, Ht'. simpl.
    assert (Hle : Z.leb e (clock_now input - t) = true) by (apply Z.leb_le; lia).
    now rewrite Hle. }
  split; [exact Hstack|].
  unfold runDialogs. unfold bind at 1. unfold gets. rewrite Hstack. reflexivity.
Qed.

(** *** The further properties on the scenarios *)

Lemma X13_witness :
  onTurn rootless (turnAt 0) 0 newWorld
  = Some (Thrown (Err "DialogManager.onTurn: the bots 'rootDialog' has not been configured."),
          newWorld).
Proof.
  exact (proj1 (X13_configuration_errors rootless (turnAt 0) 0 newWorld) eq_refl).
Defined.

(** Without [expireAfter] the stack is kept after any time. *)
Lemma X14_witness :
  prepareTurn (managerOf steady None) (turnAt 999999999) afterFirstTurn
  = (Returned tt,
     {| storage := storage afterFirstTurn;
        cache := {| _lastAccess := Some 0; _dialogs := Some rootOnStack |};
        log := [] |}).
Proof.
  exact (proj1 (X14_expireAfter_absent_or_not_positive (managerOf steady None)
                  (turnAt 999999999) afterFirstTurn eq_refl eq_refl)
           eq_refl).
Defined.

(** A first turn that returns: saved, then traced. *)
Lemma X15_witness :
  exists asked,
    Forall isHandlerCall asked
    /\ storage afterSteadyTurn = cache afterSteadyTurn
    /\ exists snapshot,
         log afterSteadyTurn =
         ([] ++ asked ++ [ SaveAllChanges (cache afterSteadyTurn);
                           SendTrace snapshot ])%list.
Proof.
  exact (X15_saved_and_traced_iff_returned (managerOf steady None) (turnAt 0) 1
           newWorld afterSteadyTurn (Returned {| turnResult := waitingResult |})
           eq_refl).
Defined.

(** Expired at 1200: the turns at 1200 and 1300 save a stack each, and the
    turn at 1400 still starts from an empty one. *)
Lemma X16_witness :
  runTurns (managerOf steady (Some 1000)) 1 [turnAt 1200; turnAt 1300] afterFirstTurn
  = Some afterExpiredTurns
  /\ dialogStack (storage afterExpiredTurns) = rootOnStack
  /\ exists w1,
       prepareTurn (managerOf steady (Some 1000)) (turnAt 1400) afterExpiredTurns
       = (Returned tt, w1)
       /\ dialogStack (cache w1) = [].
Proof.
  split; [exact eq_refl|]. split; [exact eq_refl|].
  destruct (X16_expired_conversation_restarts_every_turn (managerOf steady (Some 1000))
              [turnAt 1200; turnAt 1300] (turnAt 1400) 1 afterFirstTurn afterExpiredTurns
              0 1000 1200
              eq_refl eq_refl eq_refl eq_refl ltac:(simpl; lia) eq_refl ltac:(simpl; lia))
    as (w1 & Hprep & Hstack & _).
  exists w1. split; [exact Hprep | exact Hstack].
Defined.

End DialogManagerProperties.
